(** * The search / filter / paginate pipeline of the listing pages

    A shallow embedding of the two listing pages of the repository,
    [pastPaperPage] (past papers) and [forum] (forum posts): the page
    validator [validatePage], the tag filter of the development branch,
    the score cut-off of [performSearch], the pagination slice and the
    redirect / render decision.

    JavaScript numbers are modelled by their mathematical values: a page
    number is the result of [parseInt(.., 10)], that is an integer or NaN;
    a Fuse score is a rational or NaN, or is absent.  The libraries the
    pages call (fuse.js, Prisma, [encodeURIComponent]) are parameters.

    Also embedded: the decoding of [searchParams] ([parseInt], [split]),
    the root layout with the sign-in configuration and its session
    callback, and the data inspection script [fetchRealData], whose
    console output and database calls are a trace of events. *)

From Stdlib Require Import ZArith QArith List String Ascii Bool Lia.
From Stdlib Require Import DecimalString.
From Stdlib Require DecimalPos.
Import ListNotations.

Set Implicit Arguments.

(* ================================================================== *)
(** ** JavaScript numbers that hold a page number *)
(* ================================================================== *)

Module JS.

Local Open Scope Z_scope.

(** The value of [parseInt(s, 10)], and of the arithmetic done on it. *)
Inductive number : Type :=
| NaN : number
| Int : Z -> number.

Definition isNaN (x : number) : bool :=
  match x with NaN => true | Int _ => false end.

(** [a < b]: false as soon as one side is NaN. *)
Definition lt (a b : number) : bool :=
  match a, b with
  | Int x, Int y => x <? y
  | _, _ => false
  end.

(** [a > b]. *)
Definition gt (a b : number) : bool := lt b a.

(** [a !== b] on numbers: NaN differs from everything, itself included. *)
Definition strict_neq (a b : number) : bool :=
  match a, b with
  | Int x, Int y => negb (x =? y)
  | _, _ => true
  end.

Definition sub (a b : number) : number :=
  match a, b with Int x, Int y => Int (x - y) | _, _ => NaN end.

Definition mul (a b : number) : number :=
  match a, b with Int x, Int y => Int (x * y) | _, _ => NaN end.

Definition add (a b : number) : number :=
  match a, b with Int x, Int y => Int (x + y) | _, _ => NaN end.

(** ToIntegerOrInfinity, as [Array.prototype.slice] applies it. *)
Definition toInteger (x : number) : Z :=
  match x with NaN => 0 | Int z => z end.

(** Template-literal conversion [`${x}`]: decimal digits, which is how
    JavaScript prints an integer below 10^21. *)
Definition toString (x : number) : string :=
  match x with
  | NaN => "NaN"%string
  | Int z => NilZero.string_of_int (Z.to_int z)
  end.

(** [Math.ceil(n / d)] for an array length [n] and a positive integer [d]. *)
Definition ceilDiv (n d : Z) : Z := (n + d - 1) / d.

(** Relative index of [Array.prototype.slice]: a negative index counts
    from the end, and both ends are clamped to the array. *)
Definition relativeIndex (len i : Z) : Z :=
  if i <? 0 then Z.max (len + i) 0 else Z.min i len.

(** [l.slice(s, e)]. *)
Definition slice {A : Type} (l : list A) (s e : number) : list A :=
  let len := Z.of_nat (List.length l) in
  let k := relativeIndex len (toInteger s) in
  let final := relativeIndex len (toInteger e) in
  firstn (Z.to_nat (final - k)) (skipn (Z.to_nat k) l).

(** Truthiness of a string: only the empty string is falsy. *)
Definition truthy (s : string) : bool :=
  match s with EmptyString => false | String _ _ => true end.

End JS.

(* ================================================================== *)
(** ** PageValidator *)
(* ================================================================== *)

Local Open Scope Z_scope.

(** [validatePage], identical in both pages. *)
Definition validatePage (page totalPages : JS.number) : JS.number :=
  if JS.isNaN page || JS.lt page (JS.Int 1) then JS.Int 1
  else if JS.gt page totalPages && JS.gt totalPages (JS.Int 0) then totalPages
  else page.

(** [x] is an integer of the closed interval [lo, hi]. *)
Definition within (lo hi : Z) (x : JS.number) : Prop :=
  exists v, x = JS.Int v /\ lo <= v <= hi.

(* ================================================================== *)
(** ** Records delivered by the data layer *)
(* ================================================================== *)

(** A Prisma [Tag]; the two time stamps play no part in the pipeline. *)
Record Tag : Type := mkTag {
  tag_id : string;
  name : string;
  aliases : list string
}.

(** What a page returns: the rendered listing, or the redirect that
    [redirect(url)] raises. *)
Inductive Outcome (Item : Type) : Type :=
| Render (items : list Item) (currentPage totalPages : JS.number)
| Redirect (url : string).

Arguments Render {Item} items currentPage totalPages.
Arguments Redirect {Item} url.

(** [process.env.DATABASE_URL]: absent, or a string. *)
Definition Env : Type := option string.

(** [!process.env.DATABASE_URL]. *)
Definition noDatabase (DATABASE_URL : Env) : bool :=
  match DATABASE_URL with
  | None => true
  | Some s => negb (JS.truthy s)
  end.

(** The three locals decoded from [searchParams] at the top of a page:
    [page = parseInt(params.page || '1', 10)], [search = params.search || ''],
    and [tags], the array of requested tag names. *)
Module Params.

Record t : Type := mk {
  page : JS.number;
  search : string;
  tags : list string
}.

End Params.

(* ================================================================== *)
(** ** The external libraries, as the pages see them *)
(* ================================================================== *)

Module Fuse.

(** One entry of [keys]. *)
Record Key : Type := mkKey { key_name : string; weight : Q }.

(** The options object handed to [new Fuse(dataSet, options)]. *)
Record Options : Type := mkOptions {
  includeScore : bool;
  keys : list Key;
  threshold : Q;
  ignoreLocation : bool;
  minMatchCharLength : nat;
  findAllMatches : bool;
  useExtendedSearch : bool
}.

(** The logical query [{ $or: [ {path: pattern}, ... ] }]. *)
Inductive Expression : Type :=
| Or (alternatives : list (string * string)).

(** [fuseResult.score]: [undefined], NaN, or a number. *)
Inductive Score : Type :=
| Undefined : Score
| ScoreNaN : Score
| Value : Q -> Score.

Record Result (Item : Type) : Type := mkResult {
  item : Item;
  refIndex : nat;
  score : Score
}.

Arguments mkResult {Item} item refIndex score.
Arguments item {Item} r.
Arguments refIndex {Item} r.
Arguments score {Item} r.

(** [new Fuse(dataSet, options).search(expression)]. *)
Definition Search (Item : Type) : Type :=
  Options -> list Item -> Expression -> list (Result Item).

(** [score || 1]: [undefined], NaN and zero are falsy. *)
Definition orOne (s : Score) : Q :=
  match s with
  | Value q => if Qeq_bool q 0 then 1%Q else q
  | Undefined | ScoreNaN => 1%Q
  end.

(** [a < b] on finite numbers. *)
Definition ltb (a b : Q) : bool := negb (Qle_bool b a).

(** The predicate of the final [.filter(...)] of [performSearch]. *)
Definition belowThreshold {Item : Type} (SCORE_THRESHOLD : Q)
    (fuseResult : Result Item) : bool :=
  ltb (orOne (score fuseResult)) SCORE_THRESHOLD.

(** The results that survive the final [.filter(...)]. *)
Definition accepted {Item : Type} (SCORE_THRESHOLD : Q)
    (searchResults : list (Result Item)) : list (Result Item) :=
  filter (belowThreshold SCORE_THRESHOLD) searchResults.

End Fuse.

Module Prisma.

Inductive SortOrder : Type := asc | desc.

(** The argument of [findMany]: the [where] clause ([isClear], and
    [tags: {some: {name: {in: ...}}}] when present) and [orderBy]. *)
Record FindManyArgs : Type := mkArgs {
  where_isClear : option bool;
  where_tags_some_name_in : option (list string);
  orderBy_createdAt : SortOrder
}.

Definition FindMany (Item : Type) : Type := FindManyArgs -> list Item.

(** [...(tags.length > 0 && { tags: { some: { name: { in: tags } } } })]. *)
Definition tagsClause (tags : list string) : option (list string) :=
  if (0 <? Z.of_nat (List.length tags)) then Some tags else None.

End Prisma.

(* ================================================================== *)
(** ** TagFilter: the [.filter] of the development branch *)
(* ================================================================== *)

Section TagFilter.

Variable Item : Type.
Variable itemTags : Item -> list Tag.

(** The callback: [tags.length === 0] lets every item through, otherwise
    [tags.some(tag => item.tags.some(t => t.name === tag))]. *)
Definition matchesTags (tags : list string) (it : Item) : bool :=
  if (Z.of_nat (List.length tags) =? 0) then true
  else existsb (fun tag =>
         existsb (fun itemTag => String.eqb (name itemTag) tag) (itemTags it))
       tags.

Definition tagFilter (tags : list string) (items : list Item) : list Item :=
  filter (matchesTags tags) items.

End TagFilter.

(* ================================================================== *)
(** ** Paginator and the part of a page shared by both listings *)
(* ================================================================== *)

Section Listing.

Variable Item : Type.
Variable pageSize : Z.
Variable basePath : string.
Variable encodeURIComponent : string -> string.

(** [Math.ceil(items.length / pageSize)]. *)
Definition totalPagesOf (items : list Item) : JS.number :=
  JS.Int (JS.ceilDiv (Z.of_nat (List.length items)) pageSize).

(** [(p - 1) * pageSize]. *)
Definition startIndexOf (p : JS.number) : JS.number :=
  JS.mul (JS.sub p (JS.Int 1)) (JS.Int pageSize).

(** [items.slice(startIndex, startIndex + pageSize)]. *)
Definition paginate (items : list Item) (p : JS.number) : list Item :=
  let startIndex := startIndexOf p in
  let endIndex := JS.add startIndex (JS.Int pageSize) in
  JS.slice items startIndex endIndex.

(** The [const] bindings made between the search stage and the redirect
    test, in the order the page evaluates them. *)
Record Bindings : Type := mkBindings {
  filtered : list Item;
  totalCount : Z;
  totalPages : JS.number;
  validatedPage : JS.number;
  paginated : list Item
}.

Definition bind (items : list Item) (requested : JS.number) : Bindings :=
  let totalCount := Z.of_nat (List.length items) in
  let totalPages := totalPagesOf items in
  let validatedPage := validatePage requested totalPages in
  {| filtered := items;
     totalCount := totalCount;
     totalPages := totalPages;
     validatedPage := validatedPage;
     paginated := paginate items validatedPage |}.

(** The URL of the redirect. *)
Definition redirectUrl (validated : JS.number) (params : Params.t)
  : string :=
  let searchQuery :=
    if JS.truthy (Params.search params)
    then ("&search=" ++ encodeURIComponent (Params.search params))%string
    else ""%string in
  let tagsQuery :=
    if (0 <? Z.of_nat (List.length (Params.tags params)))
    then ("&tags=" ++ encodeURIComponent (String.concat "," (Params.tags params)))%string
    else ""%string in
  (basePath ++ "?page=" ++ JS.toString validated ++ searchQuery ++ tagsQuery)%string.

(** The tail of the database branch: redirect when the validated page is
    not the requested one, render otherwise. *)
Definition respond (b : Bindings) (params : Params.t) : Outcome Item :=
  if JS.strict_neq (validatedPage b) (Params.page params)
  then Redirect (redirectUrl (validatedPage b) params)
  else Render (paginated b) (validatedPage b) (totalPages b).

(** The pages [1 .. n]. *)
Definition pagesUpTo (n : JS.number) : list JS.number :=
  map (fun k => JS.Int (Z.of_nat k)) (seq 1 (Z.to_nat (JS.toInteger n))).

End Listing.

(* ================================================================== *)
(** ** The past papers page *)
(* ================================================================== *)

Module PastPapers.

Local Open Scope string_scope.

Record PastPaperWithTags : Type := mkPaper {
  id : string;
  title : string;
  isClear : bool;
  createdAt : string;
  tags : list Tag
}.

Definition SCORE_THRESHOLD : Q := 0.6.

Definition pageSize : Z := 9.

Definition basePath : string := "/past_papers".

Definition options : Fuse.Options :=
  {| Fuse.includeScore := true;
     Fuse.keys := [ Fuse.mkKey "title" 1; Fuse.mkKey "tags.name" 2 ];
     Fuse.threshold := 0.4;
     Fuse.ignoreLocation := true;
     Fuse.minMatchCharLength := 2;
     Fuse.findAllMatches := true;
     Fuse.useExtendedSearch := true |}.

(** The fixture of the development branch. *)
Definition mockPastPapers : list PastPaperWithTags :=
  [ mkPaper "1" "Data Structures and Algorithms - CAT 1 2023"
      true "2023-10-15"
      [mkTag "1" "CAT 1" []; mkTag "2" "A1" []; mkTag "3" "DSA" []];
    mkPaper "2" "Computer Networks - CAT 2 2023"
      true "2023-11-20"
      [mkTag "4" "CAT 2" []; mkTag "5" "B1" []; mkTag "6" "CN" []];
    mkPaper "3" "Database Management Systems - FAT 2023"
      true "2023-12-10"
      [mkTag "7" "FAT" []; mkTag "8" "C2" []; mkTag "9" "DBMS" []];
    mkPaper "4" "Operating Systems - CAT 1 2022"
      true "2022-10-12"
      [mkTag "10" "CAT 1" []; mkTag "11" "D2" []; mkTag "12" "OS" []];
    mkPaper "5" "Machine Learning - CAT 2 2022"
      true "2022-11-18"
      [mkTag "13" "CAT 2" []; mkTag "14" "E1" []; mkTag "15" "ML" []];
    mkPaper "6" "Software Engineering - FAT 2022"
      true "2022-12-05"
      [mkTag "16" "FAT" []; mkTag "17" "F1" []; mkTag "18" "SE" []];
    mkPaper "7" "Artificial Intelligence - CAT 1 2024"
      true "2024-01-15"
      [mkTag "19" "CAT 1" []; mkTag "20" "G2" []; mkTag "21" "AI" []];
    mkPaper "8" "Web Development - CAT 2 2024"
      true "2024-02-20"
      [mkTag "22" "CAT 2" []; mkTag "23" "A2" []; mkTag "24" "WD" []];
    mkPaper "9" "Computer Graphics - FAT 2024"
      true "2024-03-10"
      [mkTag "25" "FAT" []; mkTag "26" "B2" []; mkTag "27" "CG" []];
    mkPaper "10" "Cybersecurity - CAT 1 2023"
      true "2023-09-25"
      [mkTag "28" "CAT 1" []; mkTag "29" "C1" []; mkTag "30" "CS" []];
    mkPaper "11" "Mobile App Development - CAT 2 2023"
      true "2023-10-30"
      [mkTag "31" "CAT 2" []; mkTag "32" "D1" []; mkTag "33" "MAD" []];
    mkPaper "12" "Cloud Computing - FAT 2023"
      true "2023-12-15"
      [mkTag "34" "FAT" []; mkTag "35" "E2" []; mkTag "36" "CC" []];
    mkPaper "13" "Blockchain Technology - CAT 1 2024"
      true "2024-01-30"
      [mkTag "37" "CAT 1" []; mkTag "38" "F2" []; mkTag "39" "BT" []];
    mkPaper "14" "Data Science - CAT 2 2024"
      true "2024-02-25"
      [mkTag "40" "CAT 2" []; mkTag "41" "G1" []; mkTag "42" "DS" []];
    mkPaper "15" "Internet of Things - FAT 2024"
      true "2024-03-20"
      [mkTag "43" "FAT" []; mkTag "44" "A1" []; mkTag "45" "IoT" []] ].

Section Page.

Variable fuse : Fuse.Search PastPaperWithTags.
Variable findMany : Prisma.FindMany PastPaperWithTags.
Variable encodeURIComponent : string -> string.

Definition searchResults (query : string) (dataSet : list PastPaperWithTags)
  : list (Fuse.Result PastPaperWithTags) :=
  fuse options dataSet
    (Fuse.Or [ ("title", query); ("tags.name", query); ("title", "'" ++ query) ]).

Definition performSearch (query : string) (dataSet : list PastPaperWithTags)
  : list PastPaperWithTags :=
  map Fuse.item (Fuse.accepted SCORE_THRESHOLD (searchResults query dataSet)).

(** Development branch: the fixture filtered by tag; the slice is taken
    at the requested page, the pager shows the validated one. *)
Definition development (params : Params.t) : Outcome PastPaperWithTags :=
  let filteredPastPapers := tagFilter tags (Params.tags params) mockPastPapers in
  let totalPages := totalPagesOf pageSize filteredPastPapers in
  let paginatedPapers :=
    JS.slice filteredPastPapers
      (JS.mul (JS.sub (Params.page params) (JS.Int 1)) (JS.Int pageSize))
      (JS.mul (Params.page params) (JS.Int pageSize)) in
  let validatedPage := validatePage (Params.page params) totalPages in
  Render paginatedPapers validatedPage totalPages.

(** [prisma.pastPaper.findMany({ where, include, orderBy })]. *)
Definition fetched (params : Params.t) : list PastPaperWithTags :=
  findMany {| Prisma.where_isClear := Some true;
              Prisma.where_tags_some_name_in :=
                Prisma.tagsClause (Params.tags params);
              Prisma.orderBy_createdAt := Prisma.desc |}.

(** [if (search) filteredPastPapers = performSearch(search, ...)]. *)
Definition filteredPastPapers (params : Params.t) : list PastPaperWithTags :=
  if JS.truthy (Params.search params)
  then performSearch (Params.search params) (fetched params)
  else fetched params.

Definition bindings (params : Params.t) : Bindings PastPaperWithTags :=
  bind pageSize (filteredPastPapers params) (Params.page params).

Definition production (params : Params.t) : Outcome PastPaperWithTags :=
  respond basePath encodeURIComponent (bindings params) params.

Definition pastPaperPage (DATABASE_URL : Env) (params : Params.t)
  : Outcome PastPaperWithTags :=
  if noDatabase DATABASE_URL then development params else production params.

End Page.

End PastPapers.

(* ================================================================== *)
(** ** The forum page *)
(* ================================================================== *)

Module Forum.

Local Open Scope string_scope.

Record Comment : Type := mkComment {
  content : string;
  comment_author : string
}.

Record ForumPostWithDetails : Type := mkPost {
  id : string;
  title : string;
  description : string;
  author : string;
  tags : list Tag;
  comments : list Comment
}.

Definition SCORE_THRESHOLD : Q := 0.8.

Definition pageSize : Z := 5.

Definition basePath : string := "/forum".

Definition options : Fuse.Options :=
  {| Fuse.includeScore := true;
     Fuse.keys := [ Fuse.mkKey "title" 2;
                    Fuse.mkKey "author.name" 1;
                    Fuse.mkKey "tags.name" 1;
                    Fuse.mkKey "description" 1.5;
                    Fuse.mkKey "comments.content" 1;
                    Fuse.mkKey "comments.author.name" 0.5 ];
     Fuse.threshold := 0.7;
     Fuse.ignoreLocation := true;
     Fuse.minMatchCharLength := 2;
     Fuse.findAllMatches := true;
     Fuse.useExtendedSearch := true |}.

(** The fixture of the development branch. *)
Definition mockForumPosts : list ForumPostWithDetails :=
  [ mkPost "1" "Sample Forum Post 1"
      "This is a sample forum post for development mode."
      "Development User"
      [mkTag "1" "CAT 1" []; mkTag "2" "A1" []] [];
    mkPost "2" "Sample Forum Post 2"
      "Another sample forum post for testing."
      "Development User"
      [mkTag "3" "FAT" []; mkTag "4" "B2" []] [] ].

Section Page.

Variable fuse : Fuse.Search ForumPostWithDetails.
Variable findMany : Prisma.FindMany ForumPostWithDetails.
Variable encodeURIComponent : string -> string.

Definition searchResults (query : string) (dataSet : list ForumPostWithDetails)
  : list (Fuse.Result ForumPostWithDetails) :=
  fuse options dataSet
    (Fuse.Or [ ("title", query);
               ("author.name", query);
               ("tags.name", query);
               ("description", query);
               ("comments.content", query);
               ("comments.author.name", query);
               ("title", "'" ++ query) ]).

Definition performSearch (query : string) (dataSet : list ForumPostWithDetails)
  : list ForumPostWithDetails :=
  map Fuse.item (Fuse.accepted SCORE_THRESHOLD (searchResults query dataSet)).

(** Development branch: the fixture filtered by tag, sliced at the
    validated page, and never redirected. *)
Definition development (params : Params.t) : Outcome ForumPostWithDetails :=
  let filteredForumPosts := tagFilter tags (Params.tags params) mockForumPosts in
  let b := bind pageSize filteredForumPosts (Params.page params) in
  Render (paginated b) (validatedPage b) (totalPages b).

(** [prisma.forumPost.findMany({ where, include, orderBy })]. *)
Definition fetched (params : Params.t) : list ForumPostWithDetails :=
  findMany {| Prisma.where_isClear := None;
              Prisma.where_tags_some_name_in :=
                Prisma.tagsClause (Params.tags params);
              Prisma.orderBy_createdAt := Prisma.desc |}.

(** [if (search) filteredForumPosts = performSearch(search, ...)]. *)
Definition filteredForumPosts (params : Params.t) : list ForumPostWithDetails :=
  if JS.truthy (Params.search params)
  then performSearch (Params.search params) (fetched params)
  else fetched params.

Definition bindings (params : Params.t) : Bindings ForumPostWithDetails :=
  bind pageSize (filteredForumPosts params) (Params.page params).

Definition production (params : Params.t) : Outcome ForumPostWithDetails :=
  respond basePath encodeURIComponent (bindings params) params.

Definition forum (DATABASE_URL : Env) (params : Params.t)
  : Outcome ForumPostWithDetails :=
  if noDatabase DATABASE_URL then development params else production params.

End Page.

End Forum.

(* ================================================================== *)
(** ** Specification vocabulary *)
(* ================================================================== *)

Section Vocabulary.

Variable Item : Type.

(** [s] is [l] with some elements removed, the others kept in order. *)
Inductive Subseq : list Item -> list Item -> Prop :=
| Subseq_nil : Subseq [] []
| Subseq_keep : forall x s l, Subseq s l -> Subseq (x :: s) (x :: l)
| Subseq_drop : forall x s l, Subseq s l -> Subseq s (x :: l).

(** [CountOf P l k]: exactly [k] positions of [l] hold an element with [P]. *)
Inductive CountOf (P : Item -> Prop) : list Item -> nat -> Prop :=
| CountOf_nil : CountOf P [] 0
| CountOf_yes : forall x l k, P x -> CountOf P l k -> CountOf P (x :: l) (S k)
| CountOf_no : forall x l k, ~ P x -> CountOf P l k -> CountOf P (x :: l) k.

Variable itemTags : Item -> list Tag.

(** The item carries a tag of that name. *)
Definition carries (tag : string) (it : Item) : Prop :=
  exists itemTag, In itemTag (itemTags it) /\ name itemTag = tag.

(** The item's tag names meet the requested names. *)
Definition intersects (tags : list string) (it : Item) : Prop :=
  exists tag, In tag tags /\ carries tag it.

End Vocabulary.

(** Collaborators used to run the pages on concrete requests. *)
Module Sample.

Definition encode (s : string) : string := s.

Definition noMatch (Item : Type) : Fuse.Search Item := fun _ _ _ => [].

(** A search that reports every record, in order, with the given score. *)
Definition scoreAll (Item : Type) (s : Fuse.Score) : Fuse.Search Item :=
  fun _ dataSet _ => map (fun it => Fuse.mkResult it 0%nat s) dataSet.

Definition papers : Prisma.FindMany PastPapers.PastPaperWithTags :=
  fun _ => PastPapers.mockPastPapers.

Definition posts : Prisma.FindMany Forum.ForumPostWithDetails :=
  fun _ => Forum.mockForumPosts.

Definition nothing (Item : Type) : Prisma.FindMany Item := fun _ => [].


Arguments noMatch Item _ _ _ : clear implicits.
Arguments scoreAll Item s _ _ _ : clear implicits.
Arguments nothing Item _ : clear implicits.

End Sample.

(* ================================================================== *)
(** ** Decoding of [searchParams] *)
(* ================================================================== *)

(** Built-ins used where the pages decode their parameters.  A string is
    read as its sequence of code units, each below 256. *)
Module Builtin.

Local Open Scope Z_scope.

(** Truthiness of a value that is [undefined] or a string. *)
Definition truthy (x : option string) : bool :=
  match x with Some s => JS.truthy s | None => false end.

(** [x || d] for a string default [d]. *)
Definition orElse (x : option string) (d : string) : string :=
  match x with
  | Some s => if JS.truthy s then s else d
  | None => d
  end.

(** [x || y] where [y] may be [undefined] as well. *)
Definition orOpt (x y : option string) : option string :=
  if truthy x then x else y.

(** White space that [parseInt] skips: TAB, LF, VT, FF, CR, SP, NBSP. *)
Definition isWhiteSpace (c : ascii) : bool :=
  let n := Z.of_nat (nat_of_ascii c) in
  (n =? 9) || (n =? 10) || (n =? 11) || (n =? 12) || (n =? 13)
  || (n =? 32) || (n =? 160).

Fixpoint trimStart (s : string) : string :=
  match s with
  | EmptyString => EmptyString
  | String c rest => if isWhiteSpace c then trimStart rest else s
  end.

Definition digitValue (c : ascii) : option Z :=
  let n := Z.of_nat (nat_of_ascii c) in
  if (48 <=? n) && (n <=? 57) then Some (n - 48) else None.

(** Value of the longest prefix of decimal digits, [None] without a
    digit; [acc] is the value read so far. *)
Fixpoint digitPrefix (s : string) (acc : option Z) : option Z :=
  match s with
  | EmptyString => acc
  | String c rest =>
      match digitValue c with
      | Some d =>
          digitPrefix rest
            (Some (10 * match acc with Some a => a | None => 0 end + d))
      | None => acc
      end
  end.

(** [parseInt(s, 10)]: leading white space, an optional sign, then the
    longest run of digits; NaN when there is no digit.  The value is the
    exact integer (JavaScript rounds it to a double beyond 2^53). *)
Definition parseInt10 (s : string) : JS.number :=
  let trimmed := trimStart s in
  let signed :=
    match trimmed with
    | String "-"%char rest => (-1, rest)
    | String "+"%char rest => (1, rest)
    | _ => (1, trimmed)
    end in
  match digitPrefix (snd signed) None with
  | None => JS.NaN
  | Some mathInt => JS.Int (fst signed * mathInt)
  end.

(** [s.split(sep)] for a separator of one code unit. *)
Fixpoint split (sep : ascii) (s : string) : list string :=
  match s with
  | EmptyString => [EmptyString]
  | String c rest =>
      if Ascii.eqb c sep then EmptyString :: split sep rest
      else match split sep rest with
           | [] => [String c EmptyString]
           | piece :: pieces => String c piece :: pieces
           end
  end.

End Builtin.

(** [searchParams] as the router hands it over. *)
Module Raw.

(** [params.tags]: absent, one string, or an array of strings. *)
Inductive Tags : Type :=
| Absent
| Single (s : string)
| Multiple (l : list string).

Record t : Type := mk {
  page : option string;
  search : option string;
  tags : Tags
}.

End Raw.

(** [Array.isArray(params.tags) ? params.tags
     : (params.tags ? params.tags.split(',') : [])]. *)
Definition decodeTags (t : Raw.Tags) : list string :=
  match t with
  | Raw.Multiple l => l
  | Raw.Single s => if JS.truthy s then Builtin.split ","%char s else []
  | Raw.Absent => []
  end.

(** The three [const] at the top of both pages. *)
Definition decode (params : Raw.t) : Params.t :=
  {| Params.search := Builtin.orElse (Raw.search params) "";
     Params.page := Builtin.parseInt10 (Builtin.orElse (Raw.page params) "1");
     Params.tags := decodeTags (Raw.tags params) |}.

(** The pages, from the raw parameters. *)
Definition pastPaperPageOf fuse findMany encodeURIComponent
    (DATABASE_URL : Env) (searchParams : Raw.t)
  : Outcome PastPapers.PastPaperWithTags :=
  PastPapers.pastPaperPage fuse findMany encodeURIComponent DATABASE_URL
    (decode searchParams).

Definition forumOf fuse findMany encodeURIComponent
    (DATABASE_URL : Env) (searchParams : Raw.t)
  : Outcome Forum.ForumPostWithDetails :=
  Forum.forum fuse findMany encodeURIComponent DATABASE_URL
    (decode searchParams).

(** [tagsQuery={tags.join(',')}], the value handed to the pager. *)
Definition tagsQuery (tags : list string) : string := String.concat "," tags.

(** The string holds no comma. *)
Fixpoint commaFree (s : string) : bool :=
  match s with
  | EmptyString => true
  | String c rest => negb (Ascii.eqb c ","%char) && commaFree rest
  end.

(** The binary64 number that the literal [0.6] denotes; it lies a little
    below 6/10. *)
Definition binary64_0_6 : Q := 5404319552844595 # 9007199254740992.

(** [{totalPages > 1 && <Pagination currentPage={validatedPage}
    totalPages={totalPages} ... />}]: the pager of the forum page and of
    the database branch of the past papers page, when one is rendered. *)
Definition pagerOf {Item : Type} (o : Outcome Item)
  : option (JS.number * JS.number) :=
  match o with
  | Render _ currentPage totalPages =>
      if JS.gt totalPages (JS.Int 1) then Some (currentPage, totalPages)
      else None
  | Redirect _ => None
  end.

(* ================================================================== *)
(** ** Sessions, the sign-in configuration and the root layout *)
(* ================================================================== *)

(** The fields of [session.user] and of the database [user] that the
    code reads or writes. *)
Record SessionUser : Type := mkUser {
  user_id : option string;
  user_email : option string
}.

Record Session : Type := mkSession {
  session_user : option SessionUser
}.

Module Auth.

Local Open Scope string_scope.

(** The Google provider as configured. *)
Record Google : Type := mkGoogle {
  clientId : string;
  clientSecret : string;
  prompt : string;
  access_type : string;
  response_type : string;
  hd : string
}.

Record Config : Type := mkConfig {
  adapter : bool;
  trustHost : bool;
  strategy : string;
  providers : list Google
}.

(** [authConfig], read off the two environment variables. *)
Definition authConfig (AUTH_GOOGLE_ID AUTH_GOOGLE_SECRET : Env) : Config :=
  {| adapter := Builtin.truthy AUTH_GOOGLE_ID && Builtin.truthy AUTH_GOOGLE_SECRET;
     trustHost := true;
     strategy := "database";
     providers :=
       match AUTH_GOOGLE_ID, AUTH_GOOGLE_SECRET with
       | Some id, Some secret =>
           if JS.truthy id && JS.truthy secret
           then [ {| clientId := id;
                     clientSecret := secret;
                     prompt := "select_account";
                     access_type := "offline";
                     response_type := "code";
                     hd := "vitstudent.ac.in" |} ]
           else []
       | _, _ => []
       end |}.

(** [callbacks.session({ session, user })]: the session object is
    updated in place and returned. *)
Definition session (session : option Session) (user : option SessionUser)
  : option Session :=
  match session with
  | Some (mkSession (Some su)) =>
      let userId := match user with Some u => user_id u | None => None end in
      let userEmail := match user with Some u => user_email u | None => None end in
      let id' := Builtin.orOpt userId (user_id su) in
      let email' :=
        if negb (Builtin.truthy (user_email su))
        then Builtin.orOpt userEmail (user_email su)
        else user_email su in
      Some (mkSession (Some (mkUser id' email')))
  | _ => session
  end.

End Auth.

Module Layout.

(** What the layout puts in the body, or the redirect it raises. *)
Inductive Shown (Node : Type) : Type :=
| Protected (children : Node)
| Unprotected (children : option Node)
| RedirectTo (url : string).

Arguments Protected {Node} children.
Arguments Unprotected {Node} children.
Arguments RedirectTo {Node} url.

(** [!process.env.AUTH_GOOGLE_ID || !process.env.AUTH_GOOGLE_SECRET]. *)
Definition isDevelopment (AUTH_GOOGLE_ID AUTH_GOOGLE_SECRET : Env) : bool :=
  negb (Builtin.truthy AUTH_GOOGLE_ID) || negb (Builtin.truthy AUTH_GOOGLE_SECRET).

(** [session?.user?.email]. *)
Definition sessionEmail (session : option Session) : option string :=
  match session with
  | Some s => match session_user s with
              | Some u => user_email u
              | None => None
              end
  | None => None
  end.

(** [RootLayout]: a nullish [protected_routes] is [None]. *)
Definition RootLayout {Node : Type} (session : option Session)
    (AUTH_GOOGLE_ID AUTH_GOOGLE_SECRET : Env)
    (protected_routes unprotected_routes : option Node) : Shown Node :=
  if Builtin.truthy (sessionEmail session)
     || isDevelopment AUTH_GOOGLE_ID AUTH_GOOGLE_SECRET
  then match protected_routes with
       | Some children => Protected children
       | None => RedirectTo "/"
       end
  else Unprotected unprotected_routes.

End Layout.

(* ================================================================== *)
(** ** The data inspection script ([fetchRealData]) *)
(* ================================================================== *)

Module Seed.

Local Open Scope string_scope.

(** The line feed written [\n] in the script. *)
Definition nl : string := String (ascii_of_nat 10) "".

Record Author : Type := mkAuthor { author_name : option string }.

(** A past paper or a note, with the relations the queries include;
    [createdAt] is the text that the template literal prints. *)
Record Document : Type := mkDocument {
  title : string;
  tags : list Tag;
  author : option Author;
  createdAt : string
}.

Record Post : Type := mkPost {
  post_title : string;
  post_tags : list Tag;
  post_author : option Author;
  upvoteCount : JS.number;
  downvoteCount : JS.number;
  post_createdAt : string
}.

Record Subject : Type := mkSubject {
  subject_name : string;
  modules : list string
}.

(** The value the script returns on success. *)
Record Data : Type := mkData {
  pastPapers : list Document;
  notes : list Document;
  forumPosts : list Post;
  subjects : list Subject;
  catTags : list Tag
}.

(** An awaited call: rejected with an error, or fulfilled. *)
Definition Awaited (X : Type) : Type := (string + X)%type.

(** What the database answers to the five queries and to [$disconnect]. *)
Record Client : Type := mkClient {
  pastPaper_findMany : Awaited (list Document);
  note_findMany : Awaited (list Document);
  forumPost_findMany : Awaited (list Post);
  subject_findMany : Awaited (list Subject);
  tag_findMany : Awaited (list Tag);
  disconnect : Awaited unit
}.

(** What the script does that is visible from outside. *)
Inductive Event : Type :=
| Log (line : string)
| LogError (label : string) (error : string)
| Query (model : string)
| Disconnect.

(** A computation that writes events and may be rejected. *)
Definition M (X : Type) : Type := (list Event * Awaited X)%type.

Definition ret {X : Type} (x : X) : M X := ([], inr x).

Definition bind {X Y : Type} (m : M X) (f : X -> M Y) : M Y :=
  match m with
  | (events, inl error) => (events, inl error)
  | (events, inr x) =>
      let (events', y) := f x in ((events ++ events')%list, y)
  end.

Notation "x <- m ;; k" := (bind m (fun x => k))
  (at level 61, m at next level, right associativity).
Notation "m ;;; k" := (bind m (fun _ => k))
  (at level 61, right associativity).

Definition log (line : string) : M unit := ([Log line], inr tt).

(** [await prisma.<model>.findMany(...)]. *)
Definition await {X : Type} (model : string) (answer : Awaited X) : M X :=
  ([Query model], answer).

(** [items.forEach((item, index) => ...)], counting from [index]. *)
Fixpoint forEach {X : Type} (body : X -> Z -> M unit) (items : list X)
    (index : Z) : M unit :=
  match items with
  | [] => ret tt
  | item :: rest => body item index ;;; forEach body rest (index + 1)
  end.

Definition count {X : Type} (l : list X) : string :=
  JS.toString (JS.Int (Z.of_nat (List.length l))).

Definition tagNames (l : list Tag) : string :=
  String.concat ", " (map name l).

(** [author?.name || 'Unknown']. *)
Definition authorName (a : option Author) : string :=
  Builtin.orElse (match a with Some x => author_name x | None => None end)
                 "Unknown".

Definition printDocument (d : Document) (index : Z) : M unit :=
  log (JS.toString (JS.Int (index + 1)) ++ ". " ++ title d) ;;;
  log ("   Tags: " ++ tagNames (tags d)) ;;;
  log ("   Author: " ++ authorName (author d)) ;;;
  log ("   Created: " ++ createdAt d) ;;;
  log "".

Definition printPost (p : Post) (index : Z) : M unit :=
  log (JS.toString (JS.Int (index + 1)) ++ ". " ++ post_title p) ;;;
  log ("   Tags: " ++ tagNames (post_tags p)) ;;;
  log ("   Author: " ++ authorName (post_author p)) ;;;
  log ("   Votes: " ++ JS.toString (upvoteCount p) ++ " up, "
       ++ JS.toString (downvoteCount p) ++ " down") ;;;
  log ("   Created: " ++ post_createdAt p) ;;;
  log "".

Definition printSubject (s : Subject) (index : Z) : M unit :=
  log (JS.toString (JS.Int (index + 1)) ++ ". " ++ subject_name s) ;;;
  log ("   Modules: " ++ count (modules s)) ;;;
  log "".

(** [items.slice(0, 3)]. *)
Definition sample {X : Type} (items : list X) : list X :=
  JS.slice items (JS.Int 0) (JS.Int 3).

(** The body of the [try] block. *)
Definition tryBlock (prisma : Client) : M Data :=
  log "Fetching real data from database..." ;;;
  pastPapers <- await "pastPaper" (pastPaper_findMany prisma) ;;
  log ("Found " ++ count pastPapers ++ " past papers") ;;;
  notes <- await "note" (note_findMany prisma) ;;
  log ("Found " ++ count notes ++ " notes") ;;;
  forumPosts <- await "forumPost" (forumPost_findMany prisma) ;;
  log ("Found " ++ count forumPosts ++ " forum posts") ;;;
  subjects <- await "subject" (subject_findMany prisma) ;;
  log ("Found " ++ count subjects ++ " subjects") ;;;
  log (nl ++ "=== SAMPLE PAST PAPERS ===") ;;;
  forEach printDocument (sample pastPapers) 0 ;;;
  log (nl ++ "=== SAMPLE NOTES ===") ;;;
  forEach printDocument (sample notes) 0 ;;;
  log (nl ++ "=== SAMPLE FORUM POSTS ===") ;;;
  forEach printPost (sample forumPosts) 0 ;;;
  log (nl ++ "=== SAMPLE SUBJECTS ===") ;;;
  forEach printSubject (sample subjects) 0 ;;;
  catTags <- await "tag" (tag_findMany prisma) ;;
  log (nl ++ "=== CAT/FAT TAGS FOUND ===") ;;;
  forEach (fun tag _ => log ("- " ++ name tag)) catTags 0 ;;;
  ret (mkData pastPapers notes forumPosts subjects catTags).

(** How the [async] function settles. *)
Inductive Settled : Type :=
| Returned (data : option Data)
| Rejected (error : string).

(** [fetchRealData]: the [try] block, the [catch] that logs and returns
    [null], and the [finally] that disconnects. *)
Definition fetchRealData (prisma : Client) : list Event * Settled :=
  let (events, outcome) := tryBlock prisma in
  let caught :=
    match outcome with
    | inr data => (events, Some data)
    | inl error =>
        ((events ++ [LogError "Error fetching data:" error])%list, None)
    end in
  match disconnect prisma with
  | inr _ => ((fst caught ++ [Disconnect])%list, Returned (snd caught))
  | inl error => ((fst caught ++ [Disconnect])%list, Rejected error)
  end.

(** The script: [fetchRealData().then(...)]. *)
Definition script (prisma : Client) : list Event :=
  let (events, settled) := fetchRealData prisma in
  match settled with
  | Returned (Some data) =>
      (events ++
       [ Log (nl ++ "✅ Successfully fetched real data!");
         Log ("Total: " ++ count (pastPapers data) ++ " papers, "
              ++ count (notes data) ++ " notes, "
              ++ count (forumPosts data) ++ " forum posts, "
              ++ count (subjects data) ++ " subjects") ])%list
  | Returned None => (events ++ [ Log (nl ++ "❌ Failed to fetch data") ])%list
  | Rejected _ => events
  end.

(** The models that were queried, in order. *)
Fixpoint queries (events : list Event) : list string :=
  match events with
  | [] => []
  | Query model :: rest => model :: queries rest
  | _ :: rest => queries rest
  end.

(** The errors that were logged, in order. *)
Fixpoint loggedErrors (events : list Event) : list string :=
  match events with
  | [] => []
  | LogError _ error :: rest => error :: loggedErrors rest
  | _ :: rest => loggedErrors rest
  end.

(** The number of calls to [$disconnect]. *)
Fixpoint disconnects (events : list Event) : nat :=
  match events with
  | [] => 0
  | Disconnect :: rest => S (disconnects rest)
  | _ :: rest => disconnects rest
  end.

(** The number of calls to [console.log]. *)
Fixpoint logged (events : list Event) : nat :=
  match events with
  | [] => 0
  | Log _ :: rest => S (logged rest)
  | _ :: rest => logged rest
  end.

(** The error of a rejected call. *)
Definition rejection {X : Type} (answer : Awaited X) : option string :=
  match answer with inl error => Some error | inr _ => None end.

(** The five queries in the order of the script, with their rejections. *)
Definition rejections (prisma : Client) : list (option string) :=
  [ rejection (pastPaper_findMany prisma);
    rejection (note_findMany prisma);
    rejection (forumPost_findMany prisma);
    rejection (subject_findMany prisma);
    rejection (tag_findMany prisma) ].

Definition models : list string :=
  [ "pastPaper"; "note"; "forumPost"; "subject"; "tag" ].

(** The error of the first rejected query, if any. *)
Fixpoint firstRejection (l : list (option string)) : option string :=
  match l with
  | [] => None
  | Some error :: _ => Some error
  | None :: rest => firstRejection rest
  end.

(** The number of queries fulfilled before the first rejection. *)
Fixpoint fulfilledFirst (l : list (option string)) : nat :=
  match l with
  | None :: rest => S (fulfilledFirst rest)
  | _ => 0
  end.

(** A database that cannot be reached, and one with a few rows. *)
Definition offline : Client :=
  {| pastPaper_findMany := inl "ECONNREFUSED";
     note_findMany := inl "ECONNREFUSED";
     forumPost_findMany := inl "ECONNREFUSED";
     subject_findMany := inl "ECONNREFUSED";
     tag_findMany := inl "ECONNREFUSED";
     disconnect := inr tt |}.

Definition seeded : Client :=
  {| pastPaper_findMany :=
       inr [ mkDocument "DSA - CAT 1" [mkTag "1" "CAT 1" []]
               (Some (mkAuthor (Some "Asha"))) "2023-10-15";
             mkDocument "CN - CAT 2" [mkTag "2" "CAT 2" []]
               None "2023-11-20";
             mkDocument "DBMS - FAT" [mkTag "3" "FAT" []]
               (Some (mkAuthor None)) "2023-12-10";
             mkDocument "OS - CAT 1" [mkTag "1" "CAT 1" []]
               None "2022-10-12" ];
     note_findMany := inr [];
     forumPost_findMany :=
       inr [ mkPost "Exam tips" [] None (JS.Int 5) (JS.Int 1) "2024-01-01" ];
     subject_findMany := inl "P2021: table Subject does not exist";
     tag_findMany := inr [ mkTag "1" "CAT 1" [] ];
     disconnect := inr tt |}.

End Seed.

(* ================================================================== *)
(** ** PageValidator: properties *)
(* ================================================================== *)

Lemma validatePage_NaN (totalPages : JS.number) :
  validatePage JS.NaN totalPages = JS.Int 1.
Proof. reflexivity. Qed.

Lemma validatePage_small (p : Z) (totalPages : JS.number) :
  p < 1 -> validatePage (JS.Int p) totalPages = JS.Int 1.
Proof.
  intros Hp. unfold validatePage. simpl.
  destruct (Z.ltb_spec p 1) as [_ | Hge]; [reflexivity | lia].
Qed.

Lemma validatePage_clamped (p t : Z) :
  1 <= p -> t < p -> 0 < t -> validatePage (JS.Int p) (JS.Int t) = JS.Int t.
Proof.
  intros Hp Hpt Ht. unfold validatePage, JS.gt. simpl.
  destruct (Z.ltb_spec p 1); [lia |].
  destruct (Z.ltb_spec t p); [| lia].
  destruct (Z.ltb_spec 0 t); [reflexivity | lia].
Qed.

Lemma validatePage_kept (p t : Z) :
  1 <= p -> p <= t \/ t <= 0 -> validatePage (JS.Int p) (JS.Int t) = JS.Int p.
Proof.
  intros Hp Hpt. unfold validatePage, JS.gt. simpl.
  destruct (Z.ltb_spec p 1); [lia |].
  destruct (Z.ltb_spec t p); destruct (Z.ltb_spec 0 t); simpl; try reflexivity.
  lia.
Qed.

Lemma validatePage_kept_NaN_total (p : Z) :
  1 <= p -> validatePage (JS.Int p) JS.NaN = JS.Int p.
Proof.
  intros Hp. unfold validatePage, JS.gt. simpl.
  destruct (Z.ltb_spec p 1); [lia | reflexivity].
Qed.

Lemma validatePage_invalid (requestedPage totalPages : JS.number) :
  JS.isNaN requestedPage = true \/ JS.lt requestedPage (JS.Int 1) = true ->
  validatePage requestedPage totalPages = JS.Int 1.
Proof.
  intros [H | H]; unfold validatePage; rewrite H; [reflexivity |].
  rewrite orb_true_r. reflexivity.
Qed.

(** On a non-negative number of pages the validated page is an integer
    and at least 1. *)
Lemma validatePage_positive (requestedPage : JS.number) (t : Z) :
  0 <= t ->
  exists v, validatePage requestedPage (JS.Int t) = JS.Int v /\ 1 <= v.
Proof.
  intros Ht. destruct requestedPage as [| p].
  - exists 1. split; [reflexivity | lia].
  - destruct (Z.lt_ge_cases p 1) as [Hlt | Hge].
    + exists 1. split; [apply validatePage_small; assumption | lia].
    + destruct (Z.lt_ge_cases t p) as [Htp | Hpt].
      * destruct (Z.eq_dec t 0) as [-> | Hne].
        -- exists p. split; [apply validatePage_kept; lia | lia].
        -- exists t. split; [apply validatePage_clamped; lia | lia].
      * exists p. split; [apply validatePage_kept; lia | lia].
Qed.

(** The validated page is a fixed point of the validator. *)
Lemma validatePage_idempotent (p : JS.number) (t : Z) :
  0 <= t ->
  validatePage (validatePage p (JS.Int t)) (JS.Int t) = validatePage p (JS.Int t).
Proof.
  intros Ht. destruct p as [| p].
  - rewrite validatePage_NaN.
    destruct (Z.eq_dec t 0) as [-> | Hne]; [reflexivity |].
    apply validatePage_kept; lia.
  - destruct (Z.lt_ge_cases p 1) as [Hlt | Hge].
    + rewrite (validatePage_small _ Hlt).
      destruct (Z.eq_dec t 0) as [-> | Hne]; [reflexivity |].
      apply validatePage_kept; lia.
    + destruct (Z.lt_ge_cases t p) as [Htp | Hpt].
      * destruct (Z.eq_dec t 0) as [-> | Hne].
        -- rewrite (@validatePage_kept p 0) by lia. apply validatePage_kept; lia.
        -- rewrite (@validatePage_clamped p t) by lia. apply validatePage_kept; lia.
      * rewrite (@validatePage_kept p t) by lia. apply validatePage_kept; lia.
Qed.

(** C2. [validatePage] returns 1 when the requested page is NaN or below 1,
    returns [totalPages] when the requested page exceeds it and
    [totalPages > 0], and returns the requested page unchanged in every
    other case; it is defined on every input, and on an integer
    [totalPages] its result is an integer. *)
Theorem validatePage_contract (requestedPage totalPages : JS.number) :
  (JS.isNaN requestedPage = true \/ JS.lt requestedPage (JS.Int 1) = true ->
   validatePage requestedPage totalPages = JS.Int 1) /\
  (JS.gt requestedPage totalPages = true ->
   JS.gt totalPages (JS.Int 0) = true ->
   validatePage requestedPage totalPages = totalPages) /\
  (JS.isNaN requestedPage = false ->
   JS.lt requestedPage (JS.Int 1) = false ->
   JS.gt requestedPage totalPages = false \/ JS.gt totalPages (JS.Int 0) = false ->
   validatePage requestedPage totalPages = requestedPage) /\
  (forall t, totalPages = JS.Int t ->
   exists v, validatePage requestedPage totalPages = JS.Int v).
Proof.
  repeat split.
  - apply validatePage_invalid.
  - intros Hgt Hpos. unfold validatePage.
    unfold JS.gt in *.
    destruct requestedPage as [| p], totalPages as [| t];
      simpl in *; try discriminate.
    apply Z.ltb_lt in Hgt. apply Z.ltb_lt in Hpos.
    destruct (Z.ltb_spec p 1); [lia |].
    destruct (Z.ltb_spec t p); [| lia].
    destruct (Z.ltb_spec 0 t); [reflexivity | lia].
  - intros Hnan Hlt Hor. unfold validatePage. rewrite Hnan, Hlt. cbn [orb].
    destruct Hor as [H | H]; rewrite H; [reflexivity |].
    rewrite andb_false_r. reflexivity.
  - intros t ->. unfold validatePage.
    destruct requestedPage as [| p]; simpl; [eexists; reflexivity |].
    destruct (p <? 1); [eexists; reflexivity |].
    destruct ((t <? p) && (0 <? t)); eexists; reflexivity.
Qed.

(** The three branches of C2 on 0, 99 and 2 with two pages. *)
Lemma validatePage_contract_witness :
  validatePage (JS.Int 0) (JS.Int 2) = JS.Int 1 /\
  validatePage (JS.Int 99) (JS.Int 2) = JS.Int 2 /\
  validatePage (JS.Int 2) (JS.Int 2) = JS.Int 2 /\
  (exists v, validatePage JS.NaN (JS.Int 2) = JS.Int v).
Proof.
  split; [| split; [| split]].
  - apply (proj1 (validatePage_contract (JS.Int 0) (JS.Int 2))).
    right. reflexivity.
  - apply (proj1 (proj2 (validatePage_contract (JS.Int 99) (JS.Int 2))));
      reflexivity.
  - apply (proj1 (proj2 (proj2 (validatePage_contract (JS.Int 2) (JS.Int 2)))));
      [reflexivity | reflexivity | left; reflexivity].
  - apply (proj2 (proj2 (proj2 (validatePage_contract JS.NaN (JS.Int 2))))
             2 eq_refl).
Defined.

(** C1, as the specification states it, fails: with no page at all, a
    requested page 5 is returned unchanged and lies outside [1, 1]. *)
Lemma validatePage_range_counterexample :
  0 <= 0 /\
  validatePage (JS.Int 5) (JS.Int 0) = JS.Int 5 /\
  ~ within 1 (Z.max 0 1) (validatePage (JS.Int 5) (JS.Int 0)).
Proof.
  split; [lia |]. split; [reflexivity |].
  intros [v [Hv Hrange]]. simpl in Hv. injection Hv as <-. simpl in Hrange. lia.
Qed.

(** C1, amended. For [totalPages >= 0] the validated page is an integer
    not below 1; it lies in [1, max(totalPages, 1)] as soon as
    [totalPages >= 1], or the requested page is NaN or at most 1; it is the
    requested page whenever [1 <= page <= totalPages]; and with
    [totalPages = 0] a requested page above 1 is returned unchanged. *)
Theorem validatePage_range (requestedPage : JS.number) (totalPages : Z) :
  0 <= totalPages ->
  (exists v, validatePage requestedPage (JS.Int totalPages) = JS.Int v /\ 1 <= v) /\
  (1 <= totalPages \/ JS.gt requestedPage (JS.Int 1) = false ->
   within 1 (Z.max totalPages 1) (validatePage requestedPage (JS.Int totalPages))) /\
  (forall p, requestedPage = JS.Int p -> 1 <= p <= totalPages ->
   validatePage requestedPage (JS.Int totalPages) = requestedPage) /\
  (forall p, requestedPage = JS.Int p -> totalPages = 0 -> 1 < p ->
   validatePage requestedPage (JS.Int totalPages) = requestedPage).
Proof.
  intros Ht. repeat split.
  - apply validatePage_positive. exact Ht.
  - intros Hside. unfold within. destruct requestedPage as [| p].
    + exists 1. split; [reflexivity | lia].
    + destruct (Z.lt_ge_cases p 1) as [Hlt | Hge].
      * exists 1. split; [apply validatePage_small; assumption | lia].
      * destruct (Z.lt_ge_cases totalPages p) as [Htp | Hpt].
        -- destruct (Z.eq_dec totalPages 0) as [-> | Hne].
           ++ destruct Hside as [H | H]; [lia |].
              unfold JS.gt in H. simpl in H. apply Z.ltb_ge in H.
              exists p. split; [apply validatePage_kept; lia | lia].
           ++ exists totalPages. split; [apply validatePage_clamped; lia | lia].
        -- exists p. split; [apply validatePage_kept; lia | lia].
  - intros p -> Hp. apply validatePage_kept; lia.
  - intros p -> -> Hp. apply validatePage_kept; lia.
Qed.

(** C1 amended, on the second of two pages. *)
Lemma validatePage_range_witness :
  0 <= 2 /\
  within 1 (Z.max 2 1) (validatePage (JS.Int 2) (JS.Int 2)) /\
  validatePage (JS.Int 2) (JS.Int 2) = JS.Int 2.
Proof.
  split; [lia |]. split.
  - apply (proj1 (proj2 (@validatePage_range (JS.Int 2) 2 ltac:(lia)))).
    left. lia.
  - apply (proj1 (proj2 (proj2 (@validatePage_range (JS.Int 2) 2 ltac:(lia))))
             2 eq_refl).
    lia.
Defined.

(* ================================================================== *)
(** ** FuzzyMatcher: the score cut-off of [performSearch] *)
(* ================================================================== *)

Section ScoreCutOff.

Local Open Scope Q_scope.

Variable Item : Type.

Lemma ltb_lt (a b : Q) : Fuse.ltb a b = true <-> a < b.
Proof.
  unfold Fuse.ltb. rewrite negb_true_iff. split.
  - intros Hle. apply Qnot_le_lt. intros H.
    apply Qle_bool_iff in H. congruence.
  - intros Hlt. destruct (Qle_bool b a) eqn:E; [| reflexivity].
    apply Qle_bool_iff in E. exfalso. exact (Qlt_not_le _ _ Hlt E).
Qed.

(** A falsy score is read as 1. *)
Lemma orOne_zero (q : Q) : q == 0 -> Fuse.orOne (Fuse.Value q) = 1.
Proof.
  intros Hq. unfold Fuse.orOne.
  apply Qeq_bool_iff in Hq. rewrite Hq. reflexivity.
Qed.

Lemma orOne_nonzero (q : Q) : ~ q == 0 -> Fuse.orOne (Fuse.Value q) = q.
Proof.
  intros Hq. unfold Fuse.orOne.
  destruct (Qeq_bool q 0) eqn:E; [| reflexivity].
  apply Qeq_bool_iff in E. contradiction.
Qed.

(** With a threshold not above 1, the filter keeps exactly the results
    whose score is a non-zero number strictly below the threshold. *)
Lemma belowThreshold_spec (t : Q) (r : Fuse.Result Item) :
  t <= 1 ->
  (Fuse.belowThreshold t r = true <->
   exists q, Fuse.score r = Fuse.Value q /\ ~ q == 0 /\ q < t).
Proof.
  intros Ht. unfold Fuse.belowThreshold. rewrite ltb_lt.
  destruct (Fuse.score r) as [| | q].
  - split.
    + intros H. exfalso. exact (Qlt_not_le _ _ H Ht).
    + intros [q [Hq _]]. discriminate Hq.
  - split.
    + intros H. exfalso. exact (Qlt_not_le _ _ H Ht).
    + intros [q [Hq _]]. discriminate Hq.
  - destruct (Qeq_dec q 0) as [Hz | Hnz].
    + rewrite (orOne_zero Hz). split.
      * intros H. exfalso. exact (Qlt_not_le _ _ H Ht).
      * intros [q' [Hq' [Hnz' _]]]. injection Hq' as <-. contradiction.
    + rewrite (orOne_nonzero Hnz). split.
      * intros H. exists q. auto.
      * intros [q' [Hq' [_ Hlt]]]. injection Hq' as <-. exact Hlt.
Qed.

Lemma accepted_spec (t : Q) (results : list (Fuse.Result Item))
    (r : Fuse.Result Item) :
  t <= 1 ->
  (In r (Fuse.accepted t results) <->
   In r results /\
   exists q, Fuse.score r = Fuse.Value q /\ ~ q == 0 /\ q < t).
Proof.
  intros Ht. unfold Fuse.accepted. rewrite filter_In.
  rewrite (@belowThreshold_spec t r Ht). reflexivity.
Qed.

(** Every emitted item comes from a result scored below the threshold. *)
Lemma emitted_below (t : Q) (results : list (Fuse.Result Item)) (x : Item) :
  t <= 1 ->
  In x (map Fuse.item (Fuse.accepted t results)) ->
  exists r q, In r results /\ Fuse.item r = x /\
              Fuse.score r = Fuse.Value q /\ q < t.
Proof.
  intros Ht Hin. apply in_map_iff in Hin. destruct Hin as [r [Hx Hr]].
  apply (@accepted_spec t results r Ht) in Hr.
  destruct Hr as [Hr [q [Hq [_ Hlt]]]].
  exists r, q. auto.
Qed.

(** An item none of whose results is scored below the threshold is not
    emitted. *)
Lemma not_below_excluded (t : Q) (results : list (Fuse.Result Item)) (x : Item) :
  t <= 1 ->
  (forall r, In r results -> Fuse.item r = x ->
   forall q, Fuse.score r = Fuse.Value q -> ~ q < t) ->
  ~ In x (map Fuse.item (Fuse.accepted t results)).
Proof.
  intros Ht Hall Hin.
  destruct (@emitted_below t results x Ht Hin) as [r [q [Hr [Hx [Hq Hlt]]]]].
  exact (Hall r Hr Hx q Hq Hlt).
Qed.



End ScoreCutOff.

Lemma pastPapers_threshold_le_1 : (PastPapers.SCORE_THRESHOLD <= 1)%Q.
Proof. unfold PastPapers.SCORE_THRESHOLD, Qle. simpl. lia. Qed.

Lemma forum_threshold_le_1 : (Forum.SCORE_THRESHOLD <= 1)%Q.
Proof. unfold Forum.SCORE_THRESHOLD, Qle. simpl. lia. Qed.

(** C5. An item that [performSearch] emits has a Fuse result whose score is
    strictly below the page's threshold, 0.6 for past papers and 0.8 for
    the forum; an item with no result scored strictly below the threshold
    is left out of the output, which holds items only and no score. *)
Theorem performSearch_below_threshold :
  (PastPapers.SCORE_THRESHOLD == 0.6 /\ Forum.SCORE_THRESHOLD == 0.8 /\
   ~ PastPapers.SCORE_THRESHOLD == Forum.SCORE_THRESHOLD)%Q /\
  (forall fuse query dataSet,
     let results := PastPapers.searchResults fuse query dataSet in
     let output := PastPapers.performSearch fuse query dataSet in
     (forall x, In x output ->
        exists r q, In r results /\ Fuse.item r = x /\
                    Fuse.score r = Fuse.Value q /\ (q < 0.6)%Q) /\
     (forall x,
        (forall r, In r results -> Fuse.item r = x ->
         forall q, Fuse.score r = Fuse.Value q -> ~ (q < 0.6)%Q) ->
        ~ In x output)) /\
  (forall fuse query dataSet,
     let results := Forum.searchResults fuse query dataSet in
     let output := Forum.performSearch fuse query dataSet in
     (forall x, In x output ->
        exists r q, In r results /\ Fuse.item r = x /\
                    Fuse.score r = Fuse.Value q /\ (q < 0.8)%Q) /\
     (forall x,
        (forall r, In r results -> Fuse.item r = x ->
         forall q, Fuse.score r = Fuse.Value q -> ~ (q < 0.8)%Q) ->
        ~ In x output)).
Proof.
  split; [| split].
  - split; [reflexivity | split; [reflexivity |]].
    unfold PastPapers.SCORE_THRESHOLD, Forum.SCORE_THRESHOLD, Qeq. simpl. lia.
  - intros fuse query dataSet results output. split.
    + intros x Hx.
      exact (@emitted_below _ _ _ x pastPapers_threshold_le_1 Hx).
    + intros x Hall.
      exact (@not_below_excluded _ _ _ x pastPapers_threshold_le_1 Hall).
  - intros fuse query dataSet results output. split.
    + intros x Hx.
      exact (@emitted_below _ _ _ x forum_threshold_le_1 Hx).
    + intros x Hall.
      exact (@not_below_excluded _ _ _ x forum_threshold_le_1 Hall).
Qed.

(** C5 on the fixture with every record scored 0.7: the past papers
    search emits nothing, so the first paper is not in its output. *)
Lemma performSearch_below_threshold_witness :
  ~ In (nth 0 PastPapers.mockPastPapers (PastPapers.mkPaper "" "" true "" []))
       (PastPapers.performSearch
          (Sample.scoreAll _ (Fuse.Value 0.7)) "Data" PastPapers.mockPastPapers).
Proof.
  apply (proj2 (proj1 (proj2 performSearch_below_threshold)
                  (Sample.scoreAll _ (Fuse.Value 0.7)) "Data"%string
                  PastPapers.mockPastPapers)).
  intros r Hr _ q Hq.
  unfold PastPapers.searchResults, Sample.scoreAll in Hr.
  apply in_map_iff in Hr. destruct Hr as [it [<- _]].
  simpl in Hq. injection Hq as <-.
  unfold Qlt. simpl. lia.
Defined.

(** The same score 0.7 is accepted on the forum and rejected on the past
    papers page. *)
Example thresholds_differ :
  Forum.performSearch (Sample.scoreAll _ (Fuse.Value 0.7)) "Sample"
    Forum.mockForumPosts = Forum.mockForumPosts /\
  PastPapers.performSearch (Sample.scoreAll _ (Fuse.Value 0.7)) "Sample"
    PastPapers.mockPastPapers = [].
Proof. split; reflexivity. Qed.

Lemma binary64_0_6_below : (binary64_0_6 < PastPapers.SCORE_THRESHOLD)%Q.
Proof. unfold binary64_0_6, PastPapers.SCORE_THRESHOLD, Qlt. simpl. lia. Qed.

(** A result with a non-zero score below the threshold is emitted. *)
Lemma nonzero_below_emitted (Item : Type) (t : Q)
    (results : list (Fuse.Result Item)) (r : Fuse.Result Item) (q : Q) :
  (t <= 1)%Q ->
  In r results -> Fuse.score r = Fuse.Value q -> ~ (q == 0)%Q -> (q < t)%Q ->
  In (Fuse.item r) (map Fuse.item (Fuse.accepted t results)).
Proof.
  intros Ht Hr Hq Hnz Hlt. apply in_map.
  apply (@accepted_spec Item t results r Ht).
  split; [exact Hr |]. exists q. auto.
Qed.




(** With every score reported as 0 the output is empty on both pages; a
    score of 0.3 passes both. *)
Example zero_scores_vanish :
  PastPapers.performSearch (Sample.scoreAll _ (Fuse.Value 0)) "Data"
    PastPapers.mockPastPapers = [] /\
  Forum.performSearch (Sample.scoreAll _ (Fuse.Value 0)) "Sample"
    Forum.mockForumPosts = [] /\
  PastPapers.performSearch (Sample.scoreAll _ (Fuse.Value 0.3)) "Data"
    PastPapers.mockPastPapers = PastPapers.mockPastPapers /\
  Forum.performSearch (Sample.scoreAll _ (Fuse.Value 0.3)) "Sample"
    Forum.mockForumPosts = Forum.mockForumPosts.
Proof. repeat split; reflexivity. Qed.

(* ================================================================== *)
(** ** TagFilter: properties *)
(* ================================================================== *)

Section TagFilterFacts.

Variable Item : Type.
Variable itemTags : Item -> list Tag.

Lemma filter_Subseq (f : Item -> bool) (l : list Item) :
  Subseq (filter f l) l.
Proof.
  induction l as [| x l IH]; simpl.
  - constructor.
  - destruct (f x); constructor; exact IH.
Qed.

Lemma filter_CountOf (f : Item -> bool) (P : Item -> Prop) :
  (forall x, f x = true <-> P x) ->
  forall l k, CountOf P l k -> List.length (filter f l) = k.
Proof.
  intros Hf l k Hcount.
  induction Hcount as [| x l k Hx _ IH | x l k Hx _ IH]; simpl.
  - reflexivity.
  - apply Hf in Hx. rewrite Hx. simpl. rewrite IH. reflexivity.
  - destruct (f x) eqn:E; [| exact IH].
    apply Hf in E. contradiction.
Qed.

Lemma carriesb_spec (tag : string) (it : Item) :
  existsb (fun itemTag => String.eqb (name itemTag) tag) (itemTags it) = true
  <-> carries itemTags tag it.
Proof.
  rewrite existsb_exists. unfold carries.
  split; intros [t [Hin Ht]]; exists t; split; try assumption.
  - apply String.eqb_eq. exact Ht.
  - apply String.eqb_eq. exact Ht.
Qed.

(** With at least one requested tag the callback decides [intersects]. *)
Lemma matchesTags_spec (tags : list string) (it : Item) :
  tags <> [] ->
  (matchesTags itemTags tags it = true <-> intersects itemTags tags it).
Proof.
  intros Hne. unfold matchesTags, intersects.
  destruct tags as [| tag0 rest]; [contradiction |].
  replace (Z.of_nat (List.length (tag0 :: rest)) =? 0) with false
    by (symmetry; apply Z.eqb_neq; simpl List.length; lia).
  rewrite existsb_exists.
  split; intros [tag [Hin Htag]]; exists tag; split; try assumption;
    apply carriesb_spec; exact Htag.
Qed.

Lemma matchesTags_nil (it : Item) : matchesTags itemTags [] it = true.
Proof. reflexivity. Qed.

Lemma intersects_single (tag : string) (it : Item) :
  intersects itemTags [tag] it <-> carries itemTags tag it.
Proof.
  unfold intersects. split.
  - intros [t [[<- | []] Hc]]. exact Hc.
  - intros Hc. exists tag. split; [left; reflexivity | exact Hc].
Qed.

End TagFilterFacts.

(** C8. With a non-empty set of requested tags the filter keeps an item
    exactly when one of its tag names is requested (any one suffices);
    the output is the input with the other items removed, in the original
    order and with every matching position kept once; filtering by one tag
    carried by exactly [k] items returns [k] items, all carrying it. *)
Theorem tagFilter_or_semantics (Item : Type) (itemTags : Item -> list Tag)
    (tags : list string) (items : list Item) :
  tags <> [] ->
  let output := tagFilter itemTags tags items in
  (forall it, In it output <-> In it items /\ intersects itemTags tags it) /\
  Subseq output items /\
  (forall k, CountOf (intersects itemTags tags) items k ->
             List.length output = k) /\
  (NoDup items -> NoDup output) /\
  (forall tag k, tags = [tag] -> CountOf (carries itemTags tag) items k ->
     List.length output = k /\ Forall (carries itemTags tag) output).
Proof.
  intros Hne output. unfold output, tagFilter.
  split; [| split; [| split; [| split]]].
  - intros it. rewrite filter_In.
    rewrite (@matchesTags_spec _ itemTags tags it Hne). reflexivity.
  - apply filter_Subseq.
  - intros k Hcount.
    apply (@filter_CountOf _ _ (intersects itemTags tags)); [| exact Hcount].
    intros x. apply matchesTags_spec. exact Hne.
  - intros Hnd. apply NoDup_filter. exact Hnd.
  - intros tag k -> Hcount. split.
    + apply (@filter_CountOf _ _ (carries itemTags tag)); [| exact Hcount].
      intros x. rewrite (@matchesTags_spec _ itemTags [tag] x Hne).
      apply intersects_single.
    + apply Forall_forall. intros x Hx. apply filter_In in Hx.
      destruct Hx as [_ Hx].
      apply (@matchesTags_spec _ itemTags [tag] x Hne) in Hx.
      apply intersects_single. exact Hx.
Qed.

(** C8 on the fixture: the tag "CAT 1" is carried by the papers 1, 4, 7, 10
    and 13, and these five are what the filter returns. *)
Lemma tagFilter_or_semantics_witness :
  ["CAT 1"%string] <> [] /\
  Subseq (tagFilter PastPapers.tags ["CAT 1"%string] PastPapers.mockPastPapers)
         PastPapers.mockPastPapers /\
  List.length
    (tagFilter PastPapers.tags ["CAT 1"%string] PastPapers.mockPastPapers)
  = 5%nat.
Proof.
  assert (Hne : ["CAT 1"%string] <> []) by discriminate.
  split; [exact Hne |]. split.
  - exact (proj1 (proj2 (@tagFilter_or_semantics _ PastPapers.tags
                           ["CAT 1"%string] PastPapers.mockPastPapers Hne))).
  - apply (proj2 (proj2 (proj2 (proj2
             (@tagFilter_or_semantics _ PastPapers.tags
                ["CAT 1"%string] PastPapers.mockPastPapers Hne))))
           "CAT 1"%string 5%nat eq_refl).
    unfold PastPapers.mockPastPapers.
    repeat first
      [ apply CountOf_nil
      | apply CountOf_yes;
        [ eexists; split; [left; reflexivity | reflexivity] | ]
      | apply CountOf_no;
        [ intros [t [Hin Hname]]; simpl in Hin;
          destruct Hin as [<- | [<- | [<- | []]]]; discriminate Hname | ] ].
Defined.

(** Two requested tags: a paper with either one qualifies, none twice. *)
Example tagFilter_two_tags :
  map PastPapers.id
    (tagFilter PastPapers.tags ["CAT 1"; "A1"]%string PastPapers.mockPastPapers)
  = ["1"; "4"; "7"; "10"; "13"; "15"]%string.
Proof. reflexivity. Qed.

(** Without a requested tag the database query carries no tag clause. *)
Lemma tagsClause_nil : Prisma.tagsClause [] = None.
Proof. reflexivity. Qed.

(** C9. Filtering with no requested tag returns the items unchanged, in
    the same order, nothing added and nothing removed. *)
Theorem tagFilter_no_tags_identity (Item : Type) (itemTags : Item -> list Tag)
    (items : list Item) :
  tagFilter itemTags [] items = items.
Proof.
  unfold tagFilter.
  induction items as [| x items IH]; simpl.
  - reflexivity.
  - rewrite IH. reflexivity.
Qed.

(* ================================================================== *)
(** ** Paginator: properties *)
(* ================================================================== *)

Section PaginatorFacts.

Variable Item : Type.

Lemma firstn_min_length (n : nat) (l : list Item) :
  firstn (Nat.min n (List.length l)) l = firstn n l.
Proof.
  destruct (Nat.le_gt_cases n (List.length l)) as [Hle | Hgt].
  - rewrite Nat.min_l by exact Hle. reflexivity.
  - rewrite Nat.min_r by lia.
    rewrite !firstn_all2 by lia. reflexivity.
Qed.

(** A slice between two non-negative bounds is a window of the list. *)
Lemma slice_window (l : list Item) (s n : Z) :
  0 <= s -> 0 <= n ->
  JS.slice l (JS.Int s) (JS.Int (s + n))
  = firstn (Z.to_nat n) (skipn (Z.to_nat s) l).
Proof.
  intros Hs Hn. unfold JS.slice, JS.relativeIndex. simpl JS.toInteger.
  destruct (Z.ltb_spec s 0); [lia |].
  destruct (Z.ltb_spec (s + n) 0); [lia |].
  set (len := Z.of_nat (List.length l)).
  destruct (Z.le_gt_cases len s) as [Hout | Hin].
  - rewrite (Z.min_r s len) by lia.
    rewrite (Z.min_r (s + n) len) by lia.
    rewrite (skipn_all2 l) by (unfold len in *; lia).
    rewrite (skipn_all2 l) by (unfold len in *; lia).
    rewrite !firstn_nil. reflexivity.
  - rewrite (Z.min_l s len) by lia.
    rewrite <- (firstn_min_length (Z.to_nat n)).
    f_equal. rewrite length_skipn. unfold len in *. lia.
Qed.

Lemma paginate_window (pageSize : Z) (l : list Item) (p : Z) :
  0 < pageSize -> 1 <= p ->
  paginate pageSize l (JS.Int p)
  = firstn (Z.to_nat pageSize) (skipn (Z.to_nat ((p - 1) * pageSize)) l).
Proof.
  intros Hps Hp. unfold paginate, startIndexOf. simpl.
  apply slice_window; nia.
Qed.

Lemma firstn_plus (a b : nat) (l : list Item) :
  firstn (a + b) l = firstn a l ++ firstn b (skipn a l).
Proof.
  revert l. induction a as [| a IH]; intros l.
  - reflexivity.
  - destruct l as [| x l]; simpl.
    + rewrite firstn_nil. reflexivity.
    + rewrite IH. reflexivity.
Qed.

(** Consecutive windows of width [w] add up to a prefix. *)
Lemma concat_windows (w n : nat) (l : list Item) :
  List.concat (map (fun k => firstn w (skipn (k * w) l)) (seq 0 n))
  = firstn (n * w) l.
Proof.
  induction n as [| n IH].
  - reflexivity.
  - rewrite seq_S, map_app, concat_app, IH. simpl.
    rewrite app_nil_r.
    replace (w + n * w)%nat with (n * w + w)%nat by lia.
    rewrite firstn_plus. reflexivity.
Qed.

Lemma ceilDiv_covers (n d : Z) :
  0 <= n -> 0 < d -> 0 <= JS.ceilDiv n d /\ n <= JS.ceilDiv n d * d.
Proof.
  intros Hn Hd. unfold JS.ceilDiv. split.
  - apply Z.div_pos; lia.
  - pose proof (Z.div_mod (n + d - 1) d ltac:(lia)) as Hdm.
    pose proof (Z.mod_pos_bound (n + d - 1) d Hd) as Hmod.
    nia.
Qed.

Lemma ceilDiv_least (n d k : Z) :
  0 <= n -> 0 < d -> n <= k * d -> JS.ceilDiv n d <= k.
Proof.
  intros Hn Hd Hk. unfold JS.ceilDiv.
  assert (H : (n + d - 1) / d < k + 1)
    by (apply Z.div_lt_upper_bound; [exact Hd | nia]).
  lia.
Qed.

Lemma totalPagesOf_nil (pageSize : Z) :
  0 < pageSize -> totalPagesOf pageSize (@nil Item) = JS.Int 0.
Proof.
  intros Hps. unfold totalPagesOf, JS.ceilDiv. simpl.
  rewrite Z.div_small by lia. reflexivity.
Qed.

Lemma pages_concat (pageSize : Z) (items : list Item) :
  0 < pageSize ->
  List.concat (map (paginate pageSize items)
              (pagesUpTo (totalPagesOf pageSize items)))
  = items.
Proof.
  intros Hps. unfold pagesUpTo, totalPagesOf. simpl JS.toInteger.
  set (len := Z.of_nat (List.length items)).
  destruct (@ceilDiv_covers len pageSize ltac:(unfold len; lia) Hps)
    as [Hpos Hcover].
  set (n := Z.to_nat (JS.ceilDiv len pageSize)).
  rewrite <- seq_shift, !map_map.
  rewrite (map_ext _ (fun k => firstn (Z.to_nat pageSize)
                                 (skipn (k * Z.to_nat pageSize) items))).
  - rewrite concat_windows. apply firstn_all2.
    unfold n, len in *. nia.
  - intros k. rewrite paginate_window by lia.
    do 2 f_equal. nia.
Qed.

End PaginatorFacts.

(** C7. For a positive page size and [totalPages = ceil(length / pageSize)],
    the slices of the pages 1 to [totalPages], put end to end, are the
    filtered list itself; the slice of page [p] holds, at offset [j] below
    [pageSize], the element at index [(p - 1) * pageSize + j] when there is
    one and nothing else; a slice that starts at or past the end is empty;
    and a request for a page [p] of [1 .. totalPages] is validated to [p]
    and sliced there. *)
Theorem pages_partition (Item : Type) (pageSize : Z) (items : list Item) :
  0 < pageSize ->
  List.concat (map (paginate pageSize items)
              (pagesUpTo (totalPagesOf pageSize items))) = items /\
  (forall p j, 1 <= p ->
     nth_error (paginate pageSize items (JS.Int p)) j
     = if (Z.of_nat j <? pageSize)
       then nth_error items (Z.to_nat ((p - 1) * pageSize) + j)
       else None) /\
  (forall p, 1 <= p -> Z.of_nat (List.length items) <= (p - 1) * pageSize ->
     paginate pageSize items (JS.Int p) = []) /\
  (forall p, 1 <= p ->
     Z.of_nat (List.length (paginate pageSize items (JS.Int p))) <= pageSize) /\
  (forall p, 1 <= p <= JS.toInteger (totalPagesOf pageSize items) ->
     validatedPage (bind pageSize items (JS.Int p)) = JS.Int p /\
     paginated (bind pageSize items (JS.Int p))
     = paginate pageSize items (JS.Int p)).
Proof.
  intros Hps. split; [| split; [| split; [| split]]].
  - apply pages_concat. exact Hps.
  - intros p j Hp. rewrite paginate_window by assumption.
    rewrite nth_error_firstn, nth_error_skipn.
    destruct (Z.ltb_spec (Z.of_nat j) pageSize) as [Hj | Hj].
    + replace (j <? Z.to_nat pageSize)%nat with true
        by (symmetry; apply Nat.ltb_lt; lia).
      reflexivity.
    + replace (j <? Z.to_nat pageSize)%nat with false
        by (symmetry; apply Nat.ltb_ge; lia).
      reflexivity.
  - intros p Hp Hout. rewrite paginate_window by assumption.
    rewrite skipn_all2 by lia. apply firstn_nil.
  - intros p Hp. rewrite paginate_window by assumption.
    rewrite length_firstn. lia.
  - intros p Hp. unfold bind. simpl validatedPage. simpl paginated.
    unfold totalPagesOf in *. simpl JS.toInteger in Hp.
    rewrite validatePage_kept by lia. split; reflexivity.
Qed.

(** C7 on the fixture: fifteen papers in pages of nine make two pages,
    the papers 1 to 9 and the papers 10 to 15. *)
Lemma pages_partition_witness :
  0 < 9 /\
  List.concat (map (paginate 9 PastPapers.mockPastPapers)
              (pagesUpTo (totalPagesOf 9 PastPapers.mockPastPapers)))
  = PastPapers.mockPastPapers.
Proof.
  split; [lia |].
  apply (proj1 (@pages_partition _ 9 PastPapers.mockPastPapers ltac:(lia))).
Defined.

(** Scenario A of the specification, on the past papers fixture. *)
Example fifteen_papers_two_pages :
  totalPagesOf PastPapers.pageSize PastPapers.mockPastPapers = JS.Int 2 /\
  map PastPapers.id
    (paginate PastPapers.pageSize PastPapers.mockPastPapers (JS.Int 1))
  = ["1"; "2"; "3"; "4"; "5"; "6"; "7"; "8"; "9"]%string /\
  map PastPapers.id
    (paginate PastPapers.pageSize PastPapers.mockPastPapers (JS.Int 2))
  = ["10"; "11"; "12"; "13"; "14"; "15"]%string /\
  paginate PastPapers.pageSize PastPapers.mockPastPapers (JS.Int 3) = [].
Proof. repeat split; reflexivity. Qed.

(* ================================================================== *)
(** ** SearchPipeline: properties *)
(* ================================================================== *)

Section ListingFacts.

Variable Item : Type.
Variable pageSize : Z.
Variable basePath : string.
Variable encodeURIComponent : string -> string.

Lemma slice_nil (s e : JS.number) : JS.slice (@nil Item) s e = [].
Proof. unfold JS.slice. rewrite skipn_nil, firstn_nil. reflexivity. Qed.

Lemma respond_redirect (b : Bindings Item) (params : Params.t) :
  JS.strict_neq (validatedPage b) (Params.page params) = true ->
  respond basePath encodeURIComponent b params
  = Redirect (redirectUrl basePath encodeURIComponent (validatedPage b) params).
Proof. intros H. unfold respond. rewrite H. reflexivity. Qed.

Lemma respond_render (b : Bindings Item) (params : Params.t) :
  JS.strict_neq (validatedPage b) (Params.page params) = false ->
  respond basePath encodeURIComponent b params
  = Render (paginated b) (validatedPage b) (totalPages b).
Proof. intros H. unfold respond. rewrite H. reflexivity. Qed.

Lemma strict_neq_refl (p : Z) : JS.strict_neq (JS.Int p) (JS.Int p) = false.
Proof. simpl. rewrite Z.eqb_refl. reflexivity. Qed.

Lemma strict_neq_diff (a b : Z) :
  a <> b -> JS.strict_neq (JS.Int a) (JS.Int b) = true.
Proof.
  intros Hab. unfold JS.strict_neq.
  apply negb_true_iff. apply Z.eqb_neq. exact Hab.
Qed.

(** An empty result set: no page, and the validator alone decides. *)
Lemma bind_nil (requested : JS.number) :
  0 < pageSize ->
  totalPages (bind pageSize (@nil Item) requested) = JS.Int 0 /\
  validatedPage (bind pageSize (@nil Item) requested)
  = validatePage requested (JS.Int 0) /\
  paginated (bind pageSize (@nil Item) requested) = [].
Proof.
  intros Hps. unfold bind. simpl.
  rewrite (@totalPagesOf_nil Item pageSize Hps).
  repeat split. unfold paginate. apply slice_nil.
Qed.

(** The page that the redirect names is rendered when it is requested. *)
Lemma canonical_page_renders (items : list Item) (params : Params.t) :
  0 < pageSize ->
  let b := bind pageSize items (Params.page params) in
  let again := Params.mk (validatedPage b) (Params.search params)
                         (Params.tags params) in
  respond basePath encodeURIComponent
    (bind pageSize items (Params.page again)) again
  = Render (paginate pageSize items (validatedPage b))
           (validatedPage b) (totalPages b).
Proof.
  intros Hps b again. unfold again, b, bind. simpl.
  unfold totalPagesOf.
  set (t := JS.ceilDiv (Z.of_nat (List.length items)) pageSize).
  assert (Ht : 0 <= t).
  { unfold t.
    apply (@ceilDiv_covers (Z.of_nat (List.length items)) pageSize); lia. }
  unfold respond. simpl.
  rewrite (validatePage_idempotent (Params.page params) Ht).
  destruct (@validatePage_positive (Params.page params) t Ht) as [v [Hv _]].
  rewrite Hv. rewrite strict_neq_refl. reflexivity.
Qed.

End ListingFacts.

Lemma pastPaperPage_production fuse findMany enc DATABASE_URL params :
  noDatabase DATABASE_URL = false ->
  PastPapers.pastPaperPage fuse findMany enc DATABASE_URL params
  = PastPapers.production fuse findMany enc params.
Proof. intros H. unfold PastPapers.pastPaperPage. rewrite H. reflexivity. Qed.

Lemma forum_production fuse findMany enc DATABASE_URL params :
  noDatabase DATABASE_URL = false ->
  Forum.forum fuse findMany enc DATABASE_URL params
  = Forum.production fuse findMany enc params.
Proof. intros H. unfold Forum.forum. rewrite H. reflexivity. Qed.

(** C3, as the specification states it, fails on the database branch of
    the past papers page with an empty table: a requested page 5 is
    validated to 5, not 1, and a requested page 0 is redirected. *)
Lemma empty_result_counterexample :
  totalPages (PastPapers.bindings (Sample.noMatch _) (Sample.nothing _)
                (Params.mk (JS.Int 5) "" [])) = JS.Int 0 /\
  validatedPage (PastPapers.bindings (Sample.noMatch _) (Sample.nothing _)
                   (Params.mk (JS.Int 5) "" [])) = JS.Int 5 /\
  totalPages (PastPapers.bindings (Sample.noMatch _) (Sample.nothing _)
                (Params.mk (JS.Int 0) "" [])) = JS.Int 0 /\
  PastPapers.pastPaperPage (Sample.noMatch _) (Sample.nothing _) Sample.encode
    (Some "postgresql://localhost/examcooker"%string)
    (Params.mk (JS.Int 0) "" [])
  = Redirect "/past_papers?page=1".
Proof. repeat split; reflexivity. Qed.

(** C3, amended. On the database branch, when the result set after the
    filters is empty, [totalPages] is 0; a requested page that is NaN or
    below 1 is validated to 1 and redirected to page 1; a requested page
    [p >= 1] is validated to [p] itself, and the page renders an empty
    listing without redirect. *)
Theorem empty_result_set :
  (forall fuse findMany enc DATABASE_URL params,
     noDatabase DATABASE_URL = false ->
     PastPapers.filteredPastPapers fuse findMany params = [] ->
     let b := PastPapers.bindings fuse findMany params in
     let out := PastPapers.pastPaperPage fuse findMany enc DATABASE_URL params in
     totalPages b = JS.Int 0 /\
     (JS.isNaN (Params.page params) = true \/
      JS.lt (Params.page params) (JS.Int 1) = true ->
      validatedPage b = JS.Int 1 /\
      out = Redirect (redirectUrl PastPapers.basePath enc (JS.Int 1) params)) /\
     (forall p, Params.page params = JS.Int p -> 1 <= p ->
      validatedPage b = JS.Int p /\
      out = Render [] (JS.Int p) (JS.Int 0))) /\
  (forall fuse findMany enc DATABASE_URL params,
     noDatabase DATABASE_URL = false ->
     Forum.filteredForumPosts fuse findMany params = [] ->
     let b := Forum.bindings fuse findMany params in
     let out := Forum.forum fuse findMany enc DATABASE_URL params in
     totalPages b = JS.Int 0 /\
     (JS.isNaN (Params.page params) = true \/
      JS.lt (Params.page params) (JS.Int 1) = true ->
      validatedPage b = JS.Int 1 /\
      out = Redirect (redirectUrl Forum.basePath enc (JS.Int 1) params)) /\
     (forall p, Params.page params = JS.Int p -> 1 <= p ->
      validatedPage b = JS.Int p /\
      out = Render [] (JS.Int p) (JS.Int 0))).
Proof.
  split.
  - intros fuse findMany enc DATABASE_URL params Hdb Hempty b out.
    unfold out. rewrite (@pastPaperPage_production fuse findMany enc DATABASE_URL params Hdb).
    unfold PastPapers.production, b, PastPapers.bindings. rewrite Hempty.
    destruct (@bind_nil PastPapers.PastPaperWithTags PastPapers.pageSize
                (Params.page params) ltac:(reflexivity)) as [Ht [Hv Hs]].
    split; [exact Ht |]. split.
    + intros Hbad.
      assert (Hone : validatePage (Params.page params) (JS.Int 0) = JS.Int 1)
        by (apply validatePage_invalid; exact Hbad).
      rewrite Hv, Hone. split; [reflexivity |].
      rewrite respond_redirect; rewrite Hv, Hone; [reflexivity |].
      destruct (Params.page params) as [| p]; [reflexivity |].
      destruct Hbad as [Hbad | Hbad]; [discriminate Hbad |].
      simpl in Hbad. apply Z.ltb_lt in Hbad.
      apply strict_neq_diff. lia.
    + intros p Hpage Hp.
      assert (Hsame : validatePage (Params.page params) (JS.Int 0) = JS.Int p)
        by (rewrite Hpage; apply validatePage_kept; lia).
      rewrite Hv, Hsame. split; [reflexivity |].
      rewrite respond_render; rewrite ?Hv, ?Hsame, ?Ht, ?Hs, ?Hpage;
        [reflexivity | apply strict_neq_refl].
  - intros fuse findMany enc DATABASE_URL params Hdb Hempty b out.
    unfold out. rewrite (@forum_production fuse findMany enc DATABASE_URL params Hdb).
    unfold Forum.production, b, Forum.bindings. rewrite Hempty.
    destruct (@bind_nil Forum.ForumPostWithDetails Forum.pageSize
                (Params.page params) ltac:(reflexivity)) as [Ht [Hv Hs]].
    split; [exact Ht |]. split.
    + intros Hbad.
      assert (Hone : validatePage (Params.page params) (JS.Int 0) = JS.Int 1)
        by (apply validatePage_invalid; exact Hbad).
      rewrite Hv, Hone. split; [reflexivity |].
      rewrite respond_redirect; rewrite Hv, Hone; [reflexivity |].
      destruct (Params.page params) as [| p]; [reflexivity |].
      destruct Hbad as [Hbad | Hbad]; [discriminate Hbad |].
      simpl in Hbad. apply Z.ltb_lt in Hbad.
      apply strict_neq_diff. lia.
    + intros p Hpage Hp.
      assert (Hsame : validatePage (Params.page params) (JS.Int 0) = JS.Int p)
        by (rewrite Hpage; apply validatePage_kept; lia).
      rewrite Hv, Hsame. split; [reflexivity |].
      rewrite respond_render; rewrite ?Hv, ?Hsame, ?Ht, ?Hs, ?Hpage;
        [reflexivity | apply strict_neq_refl].
Qed.

(** C3 amended, on an empty table and a request for page 1: no redirect,
    an empty listing on page 1 of 0. *)
Lemma empty_result_set_witness :
  validatedPage (PastPapers.bindings (Sample.noMatch _) (Sample.nothing _)
                   (Params.mk (JS.Int 1) "" [])) = JS.Int 1 /\
  PastPapers.pastPaperPage (Sample.noMatch _) (Sample.nothing _) Sample.encode
    (Some "postgresql://localhost/examcooker"%string)
    (Params.mk (JS.Int 1) "" [])
  = Render [] (JS.Int 1) (JS.Int 0).
Proof.
  apply (proj2 (proj2 (proj1 empty_result_set
                         (Sample.noMatch _) (Sample.nothing _) Sample.encode
                         (Some "postgresql://localhost/examcooker"%string)
                         (Params.mk (JS.Int 1) "" [])
                         eq_refl eq_refl))
           1 eq_refl ltac:(lia)).
Defined.

(** C4, as the specification states it, fails in two ways on a request
    for page 99 of the fifteen papers. Without a database the page is
    rendered, not redirected, although the validated page is 2. With a
    database the redirect is issued, but the slice of page 2 (the papers
    10 to 15) has been computed before the test. *)
Lemma redirect_counterexample :
  validatePage (JS.Int 99) (totalPagesOf 9 PastPapers.mockPastPapers)
  = JS.Int 2 /\
  PastPapers.pastPaperPage (Sample.noMatch _) Sample.papers Sample.encode
    None (Params.mk (JS.Int 99) "" [])
  = Render [] (JS.Int 2) (JS.Int 2) /\
  PastPapers.pastPaperPage (Sample.noMatch _) Sample.papers Sample.encode
    (Some "postgresql://localhost/examcooker"%string)
    (Params.mk (JS.Int 99) "" [])
  = Redirect "/past_papers?page=2" /\
  map PastPapers.id
    (paginated (PastPapers.bindings (Sample.noMatch _) Sample.papers
                  (Params.mk (JS.Int 99) "" [])))
  = ["10"; "11"; "12"; "13"; "14"; "15"]%string.
Proof. repeat split; reflexivity. Qed.

(** C4, amended. On the database branch, when the validated page is not
    the requested one, the page returns a redirect and nothing is
    rendered; the URL names the validated page, then the search query and
    the comma-joined tags when they are present; requesting the validated
    page with the same query and tags renders that page. *)
Theorem redirect_takes_precedence :
  (forall fuse findMany enc DATABASE_URL params,
     noDatabase DATABASE_URL = false ->
     let b := PastPapers.bindings fuse findMany params in
     JS.strict_neq (validatedPage b) (Params.page params) = true ->
     PastPapers.pastPaperPage fuse findMany enc DATABASE_URL params
     = Redirect
         ("/past_papers" ++ "?page=" ++ JS.toString (validatedPage b)
          ++ (if JS.truthy (Params.search params)
              then "&search=" ++ enc (Params.search params) else "")
          ++ (if (0 <? Z.of_nat (List.length (Params.tags params)))%Z
              then "&tags=" ++ enc (String.concat "," (Params.tags params))
              else ""))%string /\
     (forall items current total,
        PastPapers.pastPaperPage fuse findMany enc DATABASE_URL params
        <> Render items current total) /\
     validatedPage b = validatePage (Params.page params) (totalPages b) /\
     PastPapers.pastPaperPage fuse findMany enc DATABASE_URL
       (Params.mk (validatedPage b) (Params.search params) (Params.tags params))
     = Render (paginate PastPapers.pageSize (filtered b) (validatedPage b))
              (validatedPage b) (totalPages b)) /\
  (forall fuse findMany enc DATABASE_URL params,
     noDatabase DATABASE_URL = false ->
     let b := Forum.bindings fuse findMany params in
     JS.strict_neq (validatedPage b) (Params.page params) = true ->
     Forum.forum fuse findMany enc DATABASE_URL params
     = Redirect
         ("/forum" ++ "?page=" ++ JS.toString (validatedPage b)
          ++ (if JS.truthy (Params.search params)
              then "&search=" ++ enc (Params.search params) else "")
          ++ (if (0 <? Z.of_nat (List.length (Params.tags params)))%Z
              then "&tags=" ++ enc (String.concat "," (Params.tags params))
              else ""))%string /\
     (forall items current total,
        Forum.forum fuse findMany enc DATABASE_URL params
        <> Render items current total) /\
     validatedPage b = validatePage (Params.page params) (totalPages b) /\
     Forum.forum fuse findMany enc DATABASE_URL
       (Params.mk (validatedPage b) (Params.search params) (Params.tags params))
     = Render (paginate Forum.pageSize (filtered b) (validatedPage b))
              (validatedPage b) (totalPages b)).
Proof.
  split.
  - intros fuse findMany enc DATABASE_URL params Hdb b Hneq.
    assert (Hout :
      PastPapers.pastPaperPage fuse findMany enc DATABASE_URL params
      = Redirect (redirectUrl PastPapers.basePath enc (validatedPage b) params)).
    { rewrite (@pastPaperPage_production fuse findMany enc DATABASE_URL
                 params Hdb).
      unfold PastPapers.production. apply respond_redirect. exact Hneq. }
    split; [exact Hout |]. split; [| split].
    + intros items current total Hrender.
      rewrite Hout in Hrender. discriminate Hrender.
    + reflexivity.
    + rewrite pastPaperPage_production by exact Hdb.
      unfold PastPapers.production, PastPapers.bindings.
      exact (@canonical_page_renders _ PastPapers.pageSize PastPapers.basePath
               enc (PastPapers.filteredPastPapers fuse findMany params)
               params ltac:(reflexivity)).
  - intros fuse findMany enc DATABASE_URL params Hdb b Hneq.
    assert (Hout :
      Forum.forum fuse findMany enc DATABASE_URL params
      = Redirect (redirectUrl Forum.basePath enc (validatedPage b) params)).
    { rewrite (@forum_production fuse findMany enc DATABASE_URL params Hdb).
      unfold Forum.production. apply respond_redirect. exact Hneq. }
    split; [exact Hout |]. split; [| split].
    + intros items current total Hrender.
      rewrite Hout in Hrender. discriminate Hrender.
    + reflexivity.
    + rewrite forum_production by exact Hdb.
      unfold Forum.production, Forum.bindings.
      exact (@canonical_page_renders _ Forum.pageSize Forum.basePath
               enc (Forum.filteredForumPosts fuse findMany params)
               params ltac:(reflexivity)).
Qed.

(** C4 amended, on Scenario B with a query and two tags: page 99 of two
    pages is redirected to page 2 with the query and the tags kept. *)
Lemma redirect_takes_precedence_witness :
  PastPapers.pastPaperPage (Sample.scoreAll _ (Fuse.Value 0.3)) Sample.papers
    Sample.encode (Some "postgresql://localhost/examcooker"%string)
    (Params.mk (JS.Int 99) "Data" ["CAT 1"; "CAT 2"]%string)
  = Redirect "/past_papers?page=2&search=Data&tags=CAT 1,CAT 2".
Proof.
  apply (proj1 (proj1 redirect_takes_precedence
                  (Sample.scoreAll _ (Fuse.Value 0.3)) Sample.papers
                  Sample.encode
                  (Some "postgresql://localhost/examcooker"%string)
                  (Params.mk (JS.Int 99) "Data" ["CAT 1"; "CAT 2"]%string)
                  eq_refl eq_refl)).
Defined.

(** C10. A request with an empty search query does not reach Fuse: the
    list that is counted, validated against and sliced is the list that
    [findMany] returned, and neither the bindings nor the outcome of the
    page depend on the search library. *)
Theorem empty_search_skips_fuzzy :
  (forall fuse findMany enc DATABASE_URL params,
     Params.search params = ""%string ->
     PastPapers.filteredPastPapers fuse findMany params
     = PastPapers.fetched findMany params /\
     filtered (PastPapers.bindings fuse findMany params)
     = PastPapers.fetched findMany params /\
     totalCount (PastPapers.bindings fuse findMany params)
     = Z.of_nat (List.length (PastPapers.fetched findMany params)) /\
     (forall fuse',
        PastPapers.pastPaperPage fuse' findMany enc DATABASE_URL params
        = PastPapers.pastPaperPage fuse findMany enc DATABASE_URL params)) /\
  (forall fuse findMany enc DATABASE_URL params,
     Params.search params = ""%string ->
     Forum.filteredForumPosts fuse findMany params
     = Forum.fetched findMany params /\
     filtered (Forum.bindings fuse findMany params)
     = Forum.fetched findMany params /\
     totalCount (Forum.bindings fuse findMany params)
     = Z.of_nat (List.length (Forum.fetched findMany params)) /\
     (forall fuse',
        Forum.forum fuse' findMany enc DATABASE_URL params
        = Forum.forum fuse findMany enc DATABASE_URL params)).
Proof.
  split.
  - intros fuse findMany enc DATABASE_URL params Hsearch.
    assert (Hskip : forall f,
      PastPapers.filteredPastPapers f findMany params
      = PastPapers.fetched findMany params).
    { intros f. unfold PastPapers.filteredPastPapers.
      rewrite Hsearch. reflexivity. }
    split; [apply Hskip |]. split; [| split].
    + unfold PastPapers.bindings, bind. simpl. apply Hskip.
    + unfold PastPapers.bindings, bind. simpl. rewrite Hskip. reflexivity.
    + intros fuse'.
      unfold PastPapers.pastPaperPage, PastPapers.production,
        PastPapers.bindings.
      rewrite (Hskip fuse'), (Hskip fuse). reflexivity.
  - intros fuse findMany enc DATABASE_URL params Hsearch.
    assert (Hskip : forall f,
      Forum.filteredForumPosts f findMany params
      = Forum.fetched findMany params).
    { intros f. unfold Forum.filteredForumPosts.
      rewrite Hsearch. reflexivity. }
    split; [apply Hskip |]. split; [| split].
    + unfold Forum.bindings, bind. simpl. apply Hskip.
    + unfold Forum.bindings, bind. simpl. rewrite Hskip. reflexivity.
    + intros fuse'.
      unfold Forum.forum, Forum.production, Forum.bindings.
      rewrite (Hskip fuse'), (Hskip fuse). reflexivity.
Qed.

(** C10 on the fixture, with a search library that would reject every
    record: the fifteen papers all reach pagination. *)
Lemma empty_search_skips_fuzzy_witness :
  filtered (PastPapers.bindings (Sample.scoreAll _ (Fuse.Value 0))
              Sample.papers (Params.mk (JS.Int 1) "" []))
  = PastPapers.mockPastPapers.
Proof.
  apply (proj1 (proj2 (proj1 empty_search_skips_fuzzy
                         (Sample.scoreAll _ (Fuse.Value 0)) Sample.papers
                         Sample.encode None
                         (Params.mk (JS.Int 1) "" []) eq_refl))).
Defined.

(** The same request with a query does consult Fuse. *)
Example search_consults_fuzzy :
  filtered (PastPapers.bindings (Sample.scoreAll _ (Fuse.Value 0))
              Sample.papers (Params.mk (JS.Int 1) "Data" []))
  = [].
Proof. reflexivity. Qed.

(* ================================================================== *)
(** ** Further properties of the validator and of the database branch *)
(* ================================================================== *)

(** X1. Validating twice is validating once, whatever the two inputs
    are, and the result is never NaN. *)
Theorem validatePage_fixed_point (requestedPage totalPages : JS.number) :
  validatePage (validatePage requestedPage totalPages) totalPages
  = validatePage requestedPage totalPages /\
  JS.isNaN (validatePage requestedPage totalPages) = false.
Proof.
  destruct requestedPage as [| p].
  - rewrite validatePage_NaN. split; [| reflexivity].
    destruct totalPages as [| t].
    + reflexivity.
    + unfold validatePage, JS.gt. simpl.
      destruct (Z.ltb_spec t 1); destruct (Z.ltb_spec 0 t);
        simpl; try reflexivity; lia.
  - unfold validatePage, JS.gt. destruct totalPages as [| t]; simpl.
    + destruct (Z.ltb_spec p 1) as [Hp | Hp]; simpl.
      * split; reflexivity.
      * destruct (Z.ltb_spec p 1); [lia |]. split; reflexivity.
    + destruct (Z.ltb_spec p 1) as [Hp | Hp]; simpl.
      * destruct (Z.ltb_spec t 1); destruct (Z.ltb_spec 0 t);
          simpl; split; try reflexivity; lia.
      * destruct (Z.ltb_spec t p) as [Htp | Htp];
          destruct (Z.ltb_spec 0 t) as [Ht | Ht]; simpl.
        -- destruct (Z.ltb_spec t 1); [lia |].
           rewrite Z.ltb_irrefl. simpl. split; reflexivity.
        -- destruct (Z.ltb_spec p 1); [lia |].
           destruct (Z.ltb_spec t p); [| lia]. simpl. split; reflexivity.
        -- destruct (Z.ltb_spec p 1); [lia |].
           destruct (Z.ltb_spec t p); [lia |]. simpl. split; reflexivity.
        -- destruct (Z.ltb_spec p 1); [lia |].
           destruct (Z.ltb_spec t p); [lia |]. simpl. split; reflexivity.
Qed.

(** X2. The validator preserves the order of requested pages. *)
Theorem validatePage_monotone (p q : Z) (totalPages : JS.number) :
  p <= q ->
  exists a b,
    validatePage (JS.Int p) totalPages = JS.Int a /\
    validatePage (JS.Int q) totalPages = JS.Int b /\
    a <= b.
Proof.
  intros Hpq. unfold validatePage, JS.gt.
  destruct totalPages as [| t]; simpl.
  - destruct (Z.ltb_spec p 1); destruct (Z.ltb_spec q 1); simpl;
      eexists; eexists; (split; [reflexivity | split; [reflexivity | lia]]).
  - destruct (Z.ltb_spec p 1); destruct (Z.ltb_spec q 1);
      destruct (Z.ltb_spec t p); destruct (Z.ltb_spec t q);
      destruct (Z.ltb_spec 0 t); simpl;
      eexists; eexists; (split; [reflexivity | split; [reflexivity | lia]]).
Qed.

(** Monotonicity on the pages 3 and 99 of two pages. *)
Lemma validatePage_monotone_witness :
  exists a b,
    validatePage (JS.Int 3) (JS.Int 2) = JS.Int a /\
    validatePage (JS.Int 99) (JS.Int 2) = JS.Int b /\
    a <= b.
Proof. apply (@validatePage_monotone 3 99 (JS.Int 2)). lia. Defined.

Lemma strict_neq_same (a b : Z) :
  JS.strict_neq (JS.Int a) (JS.Int b) = false -> a = b.
Proof.
  unfold JS.strict_neq. intros H.
  apply negb_false_iff in H. apply Z.eqb_eq. exact H.
Qed.

Section ListingOutcomes.

Variable Item : Type.
Variable pageSize : Z.
Variable basePath : string.
Variable encodeURIComponent : string -> string.
Hypothesis pageSize_positive : 0 < pageSize.

Let pages (items : list Item) : Z :=
  JS.ceilDiv (Z.of_nat (List.length items)) pageSize.

Lemma pages_nonneg (items : list Item) : 0 <= pages items.
Proof.
  unfold pages.
  apply (@ceilDiv_covers (Z.of_nat (List.length items)) pageSize); lia.
Qed.

Lemma pages_zero_iff (items : list Item) : pages items = 0 <-> items = [].
Proof.
  unfold pages. split.
  - intros H0.
    destruct (@ceilDiv_covers (Z.of_nat (List.length items)) pageSize
                ltac:(lia) pageSize_positive) as [_ Hcover].
    rewrite H0 in Hcover. destruct items; [reflexivity | simpl in Hcover; lia].
  - intros ->. unfold JS.ceilDiv. simpl. apply Z.div_small. lia.
Qed.

(** When the tail of the page redirects, the page it names is 1 or the
    last page. *)
Lemma respond_redirect_target (items : list Item) (params : Params.t)
    (url : string) :
  respond basePath encodeURIComponent
    (bind pageSize items (Params.page params)) params = Redirect url ->
  url = redirectUrl basePath encodeURIComponent
          (validatedPage (bind pageSize items (Params.page params))) params /\
  (validatedPage (bind pageSize items (Params.page params)) = JS.Int 1 \/
   (0 < pages items /\
    validatedPage (bind pageSize items (Params.page params))
    = JS.Int (pages items))).
Proof.
  unfold respond.
  destruct (JS.strict_neq _ _) eqn:Hneq; [| discriminate].
  intros Hurl. injection Hurl as <-. split; [reflexivity |].
  unfold bind in *. simpl in *. unfold totalPagesOf in *. fold (pages items) in *.
  destruct (Params.page params) as [| p].
  - left. reflexivity.
  - destruct (Z.lt_ge_cases p 1) as [Hlt | Hge].
    + left. apply validatePage_small. exact Hlt.
    + destruct (Z.lt_ge_cases (pages items) p) as [Htp | Hpt].
      * destruct (Z.lt_ge_cases 0 (pages items)) as [Hpos | Hzero].
        -- right. split; [exact Hpos |]. apply validatePage_clamped; lia.
        -- rewrite (@validatePage_kept p (pages items)) in Hneq by lia.
           rewrite strict_neq_refl in Hneq. discriminate Hneq.
      * rewrite (@validatePage_kept p (pages items)) in Hneq by lia.
        rewrite strict_neq_refl in Hneq. discriminate Hneq.
Qed.

(** The tail renders exactly on an integer page [p >= 1] that is within
    the pages, or arbitrary when there is no page at all. *)
Lemma respond_render_iff (items : list Item) (params : Params.t) :
  (exists shown current total,
     respond basePath encodeURIComponent
       (bind pageSize items (Params.page params)) params
     = Render shown current total) <->
  (exists p, Params.page params = JS.Int p /\ 1 <= p /\
             (p <= pages items \/ items = [])).
Proof.
  unfold respond, bind. simpl. unfold totalPagesOf. fold (pages items).
  pose proof (pages_nonneg items) as Hnn.
  split.
  - intros [shown [current [total Hr]]].
    destruct (JS.strict_neq _ _) eqn:Hneq; [discriminate Hr |].
    destruct (Params.page params) as [| p].
    + simpl in Hneq. discriminate Hneq.
    + exists p. split; [reflexivity |].
      destruct (Z.lt_ge_cases p 1) as [Hlt | Hge].
      * rewrite (validatePage_small _ Hlt) in Hneq.
        apply strict_neq_same in Hneq. lia.
      * split; [exact Hge |].
        destruct (Z.lt_ge_cases (pages items) p) as [Htp | Hpt]; [| left; lia].
        destruct (Z.lt_ge_cases 0 (pages items)) as [Hpos | Hzero].
        -- rewrite (@validatePage_clamped p (pages items)) in Hneq by lia.
           apply strict_neq_same in Hneq. lia.
        -- right. apply pages_zero_iff. lia.
  - intros [p [Hp [Hge Hin]]]. rewrite Hp.
    assert (Hkeep : validatePage (JS.Int p) (JS.Int (pages items)) = JS.Int p).
    { apply validatePage_kept; [exact Hge |].
      destruct Hin as [Hin | Hin]; [left; exact Hin |].
      right. apply pages_zero_iff in Hin. lia. }
    rewrite Hkeep, strict_neq_refl. eauto.
Qed.

(** What the tail renders: the slice of the requested page, which holds
    between one and [pageSize] items unless the list is empty, and
    [pageSize] items below the last page. *)
Lemma respond_render_content (items : list Item) (params : Params.t)
    (shown : list Item) (current total : JS.number) :
  respond basePath encodeURIComponent
    (bind pageSize items (Params.page params)) params
  = Render shown current total ->
  current = Params.page params /\
  total = JS.Int (pages items) /\
  shown = paginate pageSize items current /\
  Z.of_nat (List.length shown) <= pageSize /\
  (items <> [] -> 1 <= Z.of_nat (List.length shown)) /\
  (forall p, current = JS.Int p -> p < pages items ->
             Z.of_nat (List.length shown) = pageSize).
Proof.
  intros Hr.
  assert (Hex : exists s c t,
            respond basePath encodeURIComponent
              (bind pageSize items (Params.page params)) params
            = Render s c t) by eauto.
  apply respond_render_iff in Hex. destruct Hex as [p [Hp [Hge Hin]]].
  pose proof (pages_nonneg items) as Hnn.
  assert (Hkeep : validatePage (JS.Int p) (JS.Int (pages items)) = JS.Int p).
  { apply validatePage_kept; [exact Hge |].
    destruct Hin as [Hin | Hin]; [left; exact Hin |].
    right. apply pages_zero_iff in Hin. lia. }
  unfold respond, bind in Hr. simpl in Hr. unfold totalPagesOf in Hr.
  fold (pages items) in Hr. rewrite Hp, Hkeep, strict_neq_refl in Hr.
  injection Hr as <- <- <-. rewrite Hp.
  split; [reflexivity |]. split; [reflexivity |]. split; [reflexivity |].
  rewrite paginate_window by lia.
  rewrite length_firstn, length_skipn.
  destruct (@ceilDiv_covers (Z.of_nat (List.length items)) pageSize
              ltac:(lia) pageSize_positive) as [_ Hcover].
  fold (pages items) in Hcover.
  assert (Hstart0 : 0 <= (p - 1) * pageSize) by nia.
  assert (Hnext : (p - 1) * pageSize + pageSize = p * pageSize) by ring.
  assert (Hstart : items <> [] ->
                   (p - 1) * pageSize < Z.of_nat (List.length items)).
  { intros Hne. destruct Hin as [Hin | Hin]; [| contradiction].
    destruct (Z.lt_ge_cases ((p - 1) * pageSize)
                (Z.of_nat (List.length items))) as [H | H]; [exact H |].
    exfalso.
    assert (Hle : pages items <= p - 1).
    { unfold pages. apply ceilDiv_least; lia. }
    lia. }
  assert (Hfull : p < pages items ->
                  p * pageSize <= Z.of_nat (List.length items)).
  { intros Hlt.
    destruct (Z.lt_ge_cases (Z.of_nat (List.length items)) (p * pageSize))
      as [H | H]; [| lia].
    exfalso.
    assert (Hle : pages items <= p).
    { unfold pages. apply ceilDiv_least; lia. }
    lia. }
  set (start := (p - 1) * pageSize) in *.
  set (next := p * pageSize) in *.
  split; [lia |]. split.
  - intros Hne. specialize (Hstart Hne). lia.
  - intros p' Hp' Hlt. injection Hp' as <-. specialize (Hfull Hlt). lia.
Qed.

End ListingOutcomes.

Lemma pastPapers_pageSize_positive : 0 < PastPapers.pageSize.
Proof. reflexivity. Qed.

Lemma forum_pageSize_positive : 0 < Forum.pageSize.
Proof. reflexivity. Qed.

(** X3. On the database branch of both pages a redirect always names a
    valid page: page 1, or the last page when there is one; the URL is
    built from that page and the request's own query and tags. *)
Theorem redirect_target_is_valid :
  (forall fuse findMany enc DATABASE_URL params url,
     noDatabase DATABASE_URL = false ->
     PastPapers.pastPaperPage fuse findMany enc DATABASE_URL params
     = Redirect url ->
     let b := PastPapers.bindings fuse findMany params in
     url = redirectUrl PastPapers.basePath enc (validatedPage b) params /\
     (validatedPage b = JS.Int 1 \/
      (validatedPage b = totalPages b /\
       JS.gt (totalPages b) (JS.Int 0) = true)) /\
     within 1 (Z.max (JS.toInteger (totalPages b)) 1) (validatedPage b)) /\
  (forall fuse findMany enc DATABASE_URL params url,
     noDatabase DATABASE_URL = false ->
     Forum.forum fuse findMany enc DATABASE_URL params = Redirect url ->
     let b := Forum.bindings fuse findMany params in
     url = redirectUrl Forum.basePath enc (validatedPage b) params /\
     (validatedPage b = JS.Int 1 \/
      (validatedPage b = totalPages b /\
       JS.gt (totalPages b) (JS.Int 0) = true)) /\
     within 1 (Z.max (JS.toInteger (totalPages b)) 1) (validatedPage b)).
Proof.
  split.
  - intros fuse findMany enc DATABASE_URL params url Hdb Hout b.
    rewrite (@pastPaperPage_production fuse findMany enc DATABASE_URL
               params Hdb) in Hout.
    unfold PastPapers.production, PastPapers.bindings in Hout.
    destruct (@respond_redirect_target _ PastPapers.pageSize
                PastPapers.basePath enc _ _ _ Hout)
      as [Hurl Htarget].
    pose proof (@pages_nonneg _ PastPapers.pageSize pastPapers_pageSize_positive
                  (PastPapers.filteredPastPapers fuse findMany params)) as Hnn.
    unfold b, PastPapers.bindings. split; [exact Hurl |].
    destruct Htarget as [H1 | [Hpos Hlast]].
    + split; [left; exact H1 |]. rewrite H1. exists 1. split; [reflexivity | lia].
    + split.
      * right. split; [exact Hlast |].
        unfold bind, totalPagesOf, JS.gt. simpl. apply Z.ltb_lt. exact Hpos.
      * rewrite Hlast. eexists. split; [reflexivity |].
        unfold bind, totalPagesOf. simpl. lia.
  - intros fuse findMany enc DATABASE_URL params url Hdb Hout b.
    rewrite (@forum_production fuse findMany enc DATABASE_URL params Hdb)
      in Hout.
    unfold Forum.production, Forum.bindings in Hout.
    destruct (@respond_redirect_target _ Forum.pageSize
                Forum.basePath enc _ _ _ Hout)
      as [Hurl Htarget].
    pose proof (@pages_nonneg _ Forum.pageSize forum_pageSize_positive
                  (Forum.filteredForumPosts fuse findMany params)) as Hnn.
    unfold b, Forum.bindings. split; [exact Hurl |].
    destruct Htarget as [H1 | [Hpos Hlast]].
    + split; [left; exact H1 |]. rewrite H1. exists 1. split; [reflexivity | lia].
    + split.
      * right. split; [exact Hlast |].
        unfold bind, totalPagesOf, JS.gt. simpl. apply Z.ltb_lt. exact Hpos.
      * rewrite Hlast. eexists. split; [reflexivity |].
        unfold bind, totalPagesOf. simpl. lia.
Qed.

(** X3 on a request for page 99 of the fifteen papers: the redirect
    names page 2, the last one. *)
Lemma redirect_target_is_valid_witness :
  validatedPage (PastPapers.bindings (Sample.noMatch _) Sample.papers
                   (Params.mk (JS.Int 99) "" [])) = JS.Int 1 \/
  (validatedPage (PastPapers.bindings (Sample.noMatch _) Sample.papers
                    (Params.mk (JS.Int 99) "" []))
   = totalPages (PastPapers.bindings (Sample.noMatch _) Sample.papers
                   (Params.mk (JS.Int 99) "" [])) /\
   JS.gt (totalPages (PastPapers.bindings (Sample.noMatch _) Sample.papers
                        (Params.mk (JS.Int 99) "" []))) (JS.Int 0) = true).
Proof.
  apply (proj1 (proj2 (proj1 redirect_target_is_valid
                         (Sample.noMatch _) Sample.papers Sample.encode
                         (Some "postgresql://localhost/examcooker"%string)
                         (Params.mk (JS.Int 99) "" [])
                         "/past_papers?page=2"%string eq_refl eq_refl))).
Defined.

(** X4. On the database branch a page is rendered exactly when the
    requested page is an integer [p >= 1] that does not exceed
    [totalPages], or any [p >= 1] when the result set is empty; every
    other request is redirected. *)
Theorem render_iff_page_in_range :
  (forall fuse findMany enc DATABASE_URL params,
     noDatabase DATABASE_URL = false ->
     let b := PastPapers.bindings fuse findMany params in
     (exists shown current total,
        PastPapers.pastPaperPage fuse findMany enc DATABASE_URL params
        = Render shown current total) <->
     (exists p, Params.page params = JS.Int p /\ 1 <= p /\
                (p <= JS.toInteger (totalPages b) \/ filtered b = []))) /\
  (forall fuse findMany enc DATABASE_URL params,
     noDatabase DATABASE_URL = false ->
     let b := Forum.bindings fuse findMany params in
     (exists shown current total,
        Forum.forum fuse findMany enc DATABASE_URL params
        = Render shown current total) <->
     (exists p, Params.page params = JS.Int p /\ 1 <= p /\
                (p <= JS.toInteger (totalPages b) \/ filtered b = []))).
Proof.
  split.
  - intros fuse findMany enc DATABASE_URL params Hdb b.
    rewrite (@pastPaperPage_production fuse findMany enc DATABASE_URL
               params Hdb).
    unfold PastPapers.production, b, PastPapers.bindings.
    exact (@respond_render_iff _ PastPapers.pageSize PastPapers.basePath enc
             pastPapers_pageSize_positive
             (PastPapers.filteredPastPapers fuse findMany params) params).
  - intros fuse findMany enc DATABASE_URL params Hdb b.
    rewrite (@forum_production fuse findMany enc DATABASE_URL params Hdb).
    unfold Forum.production, b, Forum.bindings.
    exact (@respond_render_iff _ Forum.pageSize Forum.basePath enc
             forum_pageSize_positive
             (Forum.filteredForumPosts fuse findMany params) params).
Qed.

(** X4 on page 2 of the fifteen papers. *)
Lemma render_iff_page_in_range_witness :
  exists shown current total,
    PastPapers.pastPaperPage (Sample.noMatch _) Sample.papers Sample.encode
      (Some "postgresql://localhost/examcooker"%string)
      (Params.mk (JS.Int 2) "" [])
    = Render shown current total.
Proof.
  apply (proj1 render_iff_page_in_range
           (Sample.noMatch _) Sample.papers Sample.encode
           (Some "postgresql://localhost/examcooker"%string)
           (Params.mk (JS.Int 2) "" []) eq_refl).
  exists 2. split; [reflexivity |]. split; [lia |].
  left. vm_compute. discriminate.
Defined.

(** X5. What the database branch renders is the slice of the requested
    page with the requested page as current page; it holds at most
    [pageSize] items, at least one unless the result set is empty, and
    exactly [pageSize] on every page before the last. *)
Theorem rendered_page_content :
  (forall fuse findMany enc DATABASE_URL params shown current total,
     noDatabase DATABASE_URL = false ->
     PastPapers.pastPaperPage fuse findMany enc DATABASE_URL params
     = Render shown current total ->
     let b := PastPapers.bindings fuse findMany params in
     current = Params.page params /\
     total = totalPages b /\
     shown = paginate PastPapers.pageSize (filtered b) current /\
     Z.of_nat (List.length shown) <= 9 /\
     (filtered b <> [] -> 1 <= Z.of_nat (List.length shown)) /\
     (forall p, current = JS.Int p -> p < JS.toInteger total ->
                Z.of_nat (List.length shown) = 9)) /\
  (forall fuse findMany enc DATABASE_URL params shown current total,
     noDatabase DATABASE_URL = false ->
     Forum.forum fuse findMany enc DATABASE_URL params
     = Render shown current total ->
     let b := Forum.bindings fuse findMany params in
     current = Params.page params /\
     total = totalPages b /\
     shown = paginate Forum.pageSize (filtered b) current /\
     Z.of_nat (List.length shown) <= 5 /\
     (filtered b <> [] -> 1 <= Z.of_nat (List.length shown)) /\
     (forall p, current = JS.Int p -> p < JS.toInteger total ->
                Z.of_nat (List.length shown) = 5)).
Proof.
  split.
  - intros fuse findMany enc DATABASE_URL params shown current total Hdb Hout b.
    rewrite (@pastPaperPage_production fuse findMany enc DATABASE_URL
               params Hdb) in Hout.
    unfold PastPapers.production, PastPapers.bindings in Hout.
    destruct (@respond_render_content _ PastPapers.pageSize
                PastPapers.basePath enc pastPapers_pageSize_positive _ _ _ _ _ Hout)
      as [Hc [Ht [Hs [Hmax [Hmin Hfull]]]]].
    unfold b, PastPapers.bindings.
    split; [exact Hc |]. split; [exact Ht |]. split; [exact Hs |].
    split; [exact Hmax |]. split; [exact Hmin |].
    intros p Hp Hlt. apply (Hfull p Hp). rewrite Ht in Hlt. exact Hlt.
  - intros fuse findMany enc DATABASE_URL params shown current total Hdb Hout b.
    rewrite (@forum_production fuse findMany enc DATABASE_URL params Hdb)
      in Hout.
    unfold Forum.production, Forum.bindings in Hout.
    destruct (@respond_render_content _ Forum.pageSize
                Forum.basePath enc forum_pageSize_positive _ _ _ _ _ Hout)
      as [Hc [Ht [Hs [Hmax [Hmin Hfull]]]]].
    unfold b, Forum.bindings.
    split; [exact Hc |]. split; [exact Ht |]. split; [exact Hs |].
    split; [exact Hmax |]. split; [exact Hmin |].
    intros p Hp Hlt. apply (Hfull p Hp). rewrite Ht in Hlt. exact Hlt.
Qed.

(** X5 on page 1 of the fifteen papers: nine papers are shown. *)
Lemma rendered_page_content_witness :
  Z.of_nat (List.length
    (paginate PastPapers.pageSize PastPapers.mockPastPapers (JS.Int 1))) = 9.
Proof.
  apply (proj2 (proj2 (proj2 (proj2 (proj2
           (proj1 rendered_page_content
              (Sample.noMatch _) Sample.papers Sample.encode
              (Some "postgresql://localhost/examcooker"%string)
              (Params.mk (JS.Int 1) "" [])
              (paginate PastPapers.pageSize PastPapers.mockPastPapers (JS.Int 1))
              (JS.Int 1) (JS.Int 2) eq_refl eq_refl))))) 1 eq_refl).
  simpl. lia.
Defined.

(** X6. The item at index [i] of the filtered list is found on page
    [i / pageSize + 1], at offset [i mod pageSize]. *)
Theorem item_page_lookup (Item : Type) (pageSize : Z) (items : list Item)
    (i : nat) :
  0 < pageSize ->
  (i < List.length items)%nat ->
  nth_error
    (paginate pageSize items (JS.Int (Z.of_nat i / pageSize + 1)))
    (Z.to_nat (Z.of_nat i mod pageSize))
  = nth_error items i /\
  1 <= Z.of_nat i / pageSize + 1 <= JS.toInteger (totalPagesOf pageSize items).
Proof.
  intros Hps Hi.
  pose proof (Z.div_mod (Z.of_nat i) pageSize ltac:(lia)) as Hdm.
  pose proof (Z.mod_pos_bound (Z.of_nat i) pageSize Hps) as Hmod.
  assert (Hq : 0 <= Z.of_nat i / pageSize) by (apply Z.div_pos; lia).
  split.
  - rewrite paginate_window by lia.
    rewrite nth_error_firstn, nth_error_skipn.
    replace (Z.to_nat (Z.of_nat i mod pageSize) <? Z.to_nat pageSize)%nat
      with true by (symmetry; apply Nat.ltb_lt; lia).
    f_equal.
    replace (Z.of_nat i / pageSize + 1 - 1) with (Z.of_nat i / pageSize) by lia.
    rewrite <- Z2Nat.inj_add by nia.
    rewrite Z.mul_comm, <- Hdm. apply Nat2Z.id.
  - unfold totalPagesOf. simpl. split; [lia |].
    destruct (@ceilDiv_covers (Z.of_nat (List.length items)) pageSize
                ltac:(lia) Hps) as [_ Hcover].
    set (t := JS.ceilDiv (Z.of_nat (List.length items)) pageSize) in *.
    destruct (Z.lt_ge_cases (Z.of_nat i / pageSize) t) as [H | H]; [lia |].
    exfalso. nia.
Qed.

(** X6 on the fixture: the paper of index 10 is the second of page 2. *)
Lemma item_page_lookup_witness :
  nth_error (paginate 9 PastPapers.mockPastPapers (JS.Int (10 / 9 + 1)))
            (Z.to_nat (10 mod 9))
  = nth_error PastPapers.mockPastPapers 10.
Proof.
  apply (proj1 (@item_page_lookup _ 9 PastPapers.mockPastPapers 10%nat
                  ltac:(lia) ltac:(simpl; lia))).
Defined.

(** X7. [totalPages] is the least number of pages of [pageSize] items
    that hold the whole list, and it is 0 exactly for the empty list. *)
Theorem totalPages_least (Item : Type) (pageSize : Z) (items : list Item) :
  0 < pageSize ->
  exists t,
    totalPagesOf pageSize items = JS.Int t /\
    0 <= t /\
    Z.of_nat (List.length items) <= t * pageSize /\
    (forall k, Z.of_nat (List.length items) <= k * pageSize -> t <= k) /\
    (t = 0 <-> items = []).
Proof.
  intros Hps. exists (JS.ceilDiv (Z.of_nat (List.length items)) pageSize).
  destruct (@ceilDiv_covers (Z.of_nat (List.length items)) pageSize
              ltac:(lia) Hps) as [Hnn Hcover].
  split; [reflexivity |]. split; [exact Hnn |]. split; [exact Hcover |].
  split.
  - intros k Hk. apply ceilDiv_least; lia.
  - apply (@pages_zero_iff Item pageSize Hps items).
Qed.

(** X7 on the fixture and pages of nine. *)
Lemma totalPages_least_witness :
  exists t,
    totalPagesOf 9 PastPapers.mockPastPapers = JS.Int t /\
    0 <= t /\
    15 <= t * 9 /\
    (forall k, 15 <= k * 9 -> t <= k) /\
    (t = 0 <-> PastPapers.mockPastPapers = []).
Proof.
  apply (@totalPages_least _ 9 PastPapers.mockPastPapers). lia.
Defined.

(* ================================================================== *)
(** ** Further properties of [performSearch] *)
(* ================================================================== *)

Section SearchOrder.

Variable Item : Type.

Lemma accepted_items_Subseq (t : Q) (results : list (Fuse.Result Item)) :
  Subseq (map Fuse.item (Fuse.accepted t results)) (map Fuse.item results).
Proof.
  unfold Fuse.accepted.
  induction results as [| r results IH]; simpl.
  - constructor.
  - destruct (Fuse.belowThreshold t r); simpl; constructor; exact IH.
Qed.

Lemma accepted_length (t : Q) (results : list (Fuse.Result Item)) :
  (List.length (map Fuse.item (Fuse.accepted t results))
   <= List.length results)%nat.
Proof.
  rewrite length_map. unfold Fuse.accepted. apply filter_length_le.
Qed.

Lemma emitted_iff (t : Q) (results : list (Fuse.Result Item)) (x : Item) :
  (t <= 1)%Q ->
  (In x (map Fuse.item (Fuse.accepted t results)) <->
   exists r q, In r results /\ Fuse.item r = x /\
               Fuse.score r = Fuse.Value q /\ ~ (q == 0)%Q /\ (q < t)%Q).
Proof.
  intros Ht. rewrite in_map_iff. split.
  - intros [r [Hx Hr]].
    apply (@accepted_spec Item t results r Ht) in Hr.
    destruct Hr as [Hr [q [Hq [Hnz Hlt]]]].
    exists r, q. auto.
  - intros [r [q [Hr [Hx [Hq [Hnz Hlt]]]]]].
    exists r. split; [exact Hx |].
    apply (@accepted_spec Item t results r Ht).
    split; [exact Hr |]. exists q. auto.
Qed.

End SearchOrder.

(** X8. [performSearch] emits only items that have a Fuse result whose
    score is a number other than zero and strictly below the threshold of
    the page, and it emits every item that has a result whose score is
    not zero and strictly below the binary64 value of the literal 0.6 on
    the past papers page, strictly below 0.8 on the forum page; it keeps
    the order in which Fuse reported the results and never emits more
    items than Fuse reported. *)
Theorem performSearch_exact :
  (forall fuse query dataSet,
     let results := PastPapers.searchResults fuse query dataSet in
     let output := PastPapers.performSearch fuse query dataSet in
     (forall x, In x output ->
        exists r q, In r results /\ Fuse.item r = x /\
                    Fuse.score r = Fuse.Value q /\
                    ~ (q == 0)%Q /\ (q < 0.6)%Q) /\
     (forall r q, In r results -> Fuse.score r = Fuse.Value q ->
        ~ (q == 0)%Q -> (q < binary64_0_6)%Q -> In (Fuse.item r) output) /\
     Subseq output (map Fuse.item results) /\
     (List.length output <= List.length results)%nat) /\
  (forall fuse query dataSet,
     let results := Forum.searchResults fuse query dataSet in
     let output := Forum.performSearch fuse query dataSet in
     (forall x, In x output ->
        exists r q, In r results /\ Fuse.item r = x /\
                    Fuse.score r = Fuse.Value q /\
                    ~ (q == 0)%Q /\ (q < 0.8)%Q) /\
     (forall r q, In r results -> Fuse.score r = Fuse.Value q ->
        ~ (q == 0)%Q -> (q < 0.8)%Q -> In (Fuse.item r) output) /\
     Subseq output (map Fuse.item results) /\
     (List.length output <= List.length results)%nat).
Proof.
  split.
  - intros fuse query dataSet results output. split; [| split; [| split]].
    + intros x.
      exact (proj1 (@emitted_iff _ PastPapers.SCORE_THRESHOLD results x
                      pastPapers_threshold_le_1)).
    + intros r q Hr Hq Hnz Hlt.
      apply (@nonzero_below_emitted _ PastPapers.SCORE_THRESHOLD results r q
               pastPapers_threshold_le_1 Hr Hq Hnz).
      exact (Qlt_trans _ _ _ Hlt binary64_0_6_below).
    + apply accepted_items_Subseq.
    + apply accepted_length.
  - intros fuse query dataSet results output. split; [| split; [| split]].
    + intros x.
      exact (proj1 (@emitted_iff _ Forum.SCORE_THRESHOLD results x
                      forum_threshold_le_1)).
    + intros r q Hr Hq Hnz Hlt.
      exact (@nonzero_below_emitted _ Forum.SCORE_THRESHOLD results r q
               forum_threshold_le_1 Hr Hq Hnz Hlt).
    + apply accepted_items_Subseq.
    + apply accepted_length.
Qed.

(** X8 on the forum fixture with every post scored 0.3: the first post
    is emitted. *)
Lemma performSearch_exact_witness :
  In (nth 0 Forum.mockForumPosts (Forum.mkPost "" "" "" "" [] []))
     (Forum.performSearch
        (Sample.scoreAll _ (Fuse.Value 0.3)) "Sample" Forum.mockForumPosts).
Proof.
  apply (proj1 (proj2 (proj2 performSearch_exact
                         (Sample.scoreAll _ (Fuse.Value 0.3)) "Sample"%string
                         Forum.mockForumPosts))
           (Fuse.mkResult
              (nth 0 Forum.mockForumPosts (Forum.mkPost "" "" "" "" [] []))
              0%nat (Fuse.Value 0.3))
           0.3%Q).
  - left. reflexivity.
  - reflexivity.
  - unfold Qeq. simpl. lia.
  - unfold Qlt. simpl. lia.
Defined.

(* ================================================================== *)
(** ** Decoding of the parameters: properties *)
(* ================================================================== *)

Lemma split_nonempty (sep : ascii) (s : string) : Builtin.split sep s <> [].
Proof.
  destruct s as [| c rest]; simpl.
  - discriminate.
  - destruct (Ascii.eqb c sep); [discriminate |].
    destruct (Builtin.split sep rest); discriminate.
Qed.

Lemma concat_cons (sep x : string) (l : list string) :
  l <> [] ->
  String.concat sep (x :: l) = (x ++ sep ++ String.concat sep l)%string.
Proof. destruct l; [contradiction | reflexivity]. Qed.

(** Joining the pieces of a split gives the string back. *)
Lemma concat_split (sep : ascii) (s : string) :
  String.concat (String sep "") (Builtin.split sep s) = s.
Proof.
  induction s as [| c rest IH]; simpl.
  - reflexivity.
  - destruct (Ascii.eqb_spec c sep) as [-> | Hne].
    + rewrite concat_cons by apply split_nonempty.
      simpl. rewrite IH. reflexivity.
    + destruct (Builtin.split sep rest) as [| piece pieces] eqn:E.
      * exfalso. exact (split_nonempty sep rest E).
      * destruct pieces as [| piece' pieces'].
        -- simpl in *. rewrite IH. reflexivity.
        -- rewrite concat_cons by discriminate.
           rewrite concat_cons in IH by discriminate.
           rewrite <- IH. reflexivity.
Qed.

Lemma split_commaFree (s : string) :
  commaFree s = true -> Builtin.split ","%char s = [s].
Proof.
  induction s as [| c rest IH]; simpl; intros H.
  - reflexivity.
  - apply andb_true_iff in H. destruct H as [Hc Hrest].
    apply negb_true_iff in Hc. rewrite Hc.
    rewrite (IH Hrest). reflexivity.
Qed.

Lemma split_append_comma (a b : string) :
  commaFree a = true ->
  Builtin.split ","%char (a ++ String ","%char b)%string
  = a :: Builtin.split ","%char b.
Proof.
  induction a as [| c rest IH]; simpl; intros H.
  - reflexivity.
  - apply andb_true_iff in H. destruct H as [Hc Hrest].
    apply negb_true_iff in Hc. rewrite Hc.
    rewrite (IH Hrest). reflexivity.
Qed.

Lemma split_append (a b : string) :
  commaFree a = true ->
  Builtin.split ","%char (a ++ "," ++ b)%string
  = a :: Builtin.split ","%char b.
Proof. exact (split_append_comma a b). Qed.

Lemma split_concat (tags : list string) :
  Forall (fun tag => commaFree tag = true) tags ->
  tags <> [] ->
  Builtin.split ","%char (String.concat "," tags) = tags.
Proof.
  induction tags as [| x rest IH]; intros Hfree Hne; [contradiction |].
  inversion Hfree as [| ? ? Hx Hrest]; subst.
  destruct rest as [| y rest'].
  - simpl. apply split_commaFree. exact Hx.
  - rewrite concat_cons by discriminate.
    rewrite split_append by exact Hx.
    rewrite IH; [reflexivity | exact Hrest | discriminate].
Qed.

Lemma append_comma_truthy (a b : string) :
  JS.truthy (a ++ "," ++ b)%string = true.
Proof. destruct a; reflexivity. Qed.

Lemma tagsQuery_truthy (tags : list string) :
  tags <> [] -> tags <> [""%string] -> JS.truthy (tagsQuery tags) = true.
Proof.
  unfold tagsQuery. intros Hne Hnot.
  destruct tags as [| x rest]; [contradiction |].
  destruct rest as [| y rest'].
  - simpl. destruct x; [contradiction | reflexivity].
  - rewrite concat_cons by discriminate. apply append_comma_truthy.
Qed.

Lemma decodeTags_joined (tags : list string) :
  Forall (fun tag => commaFree tag = true) tags ->
  tags <> [""%string] ->
  decodeTags (Raw.Single (tagsQuery tags)) = tags.
Proof.
  intros Hfree Hnot. unfold decodeTags.
  destruct tags as [| x rest].
  - reflexivity.
  - rewrite tagsQuery_truthy by (discriminate || exact Hnot).
    apply split_concat; [exact Hfree | discriminate].
Qed.

(** X9. The tags written in a link ([tags.join(',')]) decode to the same
    list of tags, provided no tag holds a comma and the list is not the
    single empty tag. *)
Theorem tags_round_trip (tags : list string) :
  Forall (fun tag => commaFree tag = true) tags ->
  tags <> [""%string] ->
  decodeTags (Raw.Single (tagsQuery tags)) = tags.
Proof.
  intros Hfree Hnot. unfold decodeTags.
  destruct tags as [| x rest].
  - reflexivity.
  - rewrite tagsQuery_truthy by (discriminate || exact Hnot).
    apply split_concat; [exact Hfree | discriminate].
Qed.

(** X9 on two tags of the fixture. *)
Lemma tags_round_trip_witness :
  decodeTags (Raw.Single (tagsQuery ["CAT 1"; "CAT 2"]%string))
  = ["CAT 1"; "CAT 2"]%string.
Proof.
  apply (@tags_round_trip ["CAT 1"; "CAT 2"]%string).
  - repeat constructor.
  - discriminate.
Defined.

(** A tag that holds a comma does not survive the link. *)
Example tag_with_comma_is_split :
  decodeTags (Raw.Single (tagsQuery ["Maths, Physics"]%string))
  = ["Maths"; " Physics"]%string /\
  decodeTags (Raw.Single (tagsQuery [""]%string)) = [].
Proof. split; reflexivity. Qed.

(** X10. A [tags] parameter given as one string is what the pager gets
    back as [tagsQuery]: splitting on commas and joining again loses
    nothing. *)
Theorem tagsQuery_of_decoded (s : string) :
  tagsQuery (decodeTags (Raw.Single s)) = s.
Proof.
  unfold decodeTags, tagsQuery. destruct s as [| c rest].
  - reflexivity.
  - simpl JS.truthy. cbv iota.
    exact (concat_split ","%char (String c rest)).
Qed.

Section ParseDigits.

Import Decimal.

Local Ltac read_digit :=
  match goal with
  | |- context [Builtin.digitValue ?c] =>
      let v := eval vm_compute in (Builtin.digitValue c) in
      change (Builtin.digitValue c) with v; cbv iota beta
  end.

Local Ltac skip_no_space :=
  match goal with
  | |- context [Builtin.isWhiteSpace ?c] =>
      let v := eval vm_compute in (Builtin.isWhiteSpace c) in
      change (Builtin.isWhiteSpace c) with v; cbv iota beta
  end.

Lemma digitPrefix_acc (d : uint) :
  forall acc : positive,
    Builtin.digitPrefix (NilEmpty.string_of_uint d) (Some (Zpos acc))
    = Some (Zpos (Pos.of_uint_acc d acc)).
Proof.
  induction d as [| d IH | d IH | d IH | d IH | d IH
                  | d IH | d IH | d IH | d IH | d IH];
    intros acc; [reflexivity | ..];
    cbn [NilEmpty.string_of_uint Builtin.digitPrefix Pos.of_uint_acc];
    read_digit; rewrite <- IH; f_equal; f_equal; lia.
Qed.

Lemma digitPrefix_zero (d : uint) :
  Builtin.digitPrefix (NilEmpty.string_of_uint d) (Some 0)
  = Some (Z.of_N (Pos.of_uint d)).
Proof.
  induction d as [| d IH | d IH | d IH | d IH | d IH
                  | d IH | d IH | d IH | d IH | d IH];
    [reflexivity | ..];
    cbn [NilEmpty.string_of_uint Builtin.digitPrefix Pos.of_uint];
    read_digit; [exact IH | ..]; apply digitPrefix_acc.
Qed.

Lemma digitPrefix_start (d : uint) :
  d <> Nil ->
  Builtin.digitPrefix (NilEmpty.string_of_uint d) None
  = Some (Z.of_N (Pos.of_uint d)).
Proof.
  intros Hd. rewrite <- digitPrefix_zero.
  destruct d; [contradiction | ..]; reflexivity.
Qed.

(** The decimal text of a positive number starts with a digit, so that
    [parseInt] finds neither white space nor a sign to skip. *)
Lemma parseInt10_digits (d : uint) :
  d <> Nil ->
  Builtin.parseInt10 (NilEmpty.string_of_uint d)
  = JS.Int (Z.of_N (Pos.of_uint d)) /\
  Builtin.parseInt10 (String "-"%char (NilEmpty.string_of_uint d))
  = JS.Int (- Z.of_N (Pos.of_uint d)).
Proof.
  intros Hd. pose proof (@digitPrefix_start d Hd) as Hp.
  split.
  - unfold Builtin.parseInt10.
    destruct d; [contradiction | ..];
      cbn [NilEmpty.string_of_uint Builtin.trimStart] in *;
      skip_no_space; cbn [snd fst];
      rewrite Hp; f_equal; lia.
  - unfold Builtin.parseInt10.
    cbn [Builtin.trimStart]. skip_no_space. cbn [snd fst].
    rewrite Hp; f_equal; lia.
Qed.

End ParseDigits.

Lemma parseInt10_toString (z : Z) :
  Builtin.parseInt10 (JS.toString (JS.Int z)) = JS.Int z.
Proof.
  unfold JS.toString. destruct z as [| p | p].
  - reflexivity.
  - simpl Z.to_int. unfold NilZero.string_of_int, NilZero.string_of_uint.
    pose proof (DecimalPos.Unsigned.to_uint_nonnil p) as Hnn.
    destruct (@parseInt10_digits (Pos.to_uint p) Hnn) as [Hpos _].
    rewrite DecimalPos.Unsigned.of_to in Hpos.
    destruct (Pos.to_uint p); [contradiction | ..]; exact Hpos.
  - simpl Z.to_int. unfold NilZero.string_of_int, NilZero.string_of_uint.
    pose proof (DecimalPos.Unsigned.to_uint_nonnil p) as Hnn.
    destruct (@parseInt10_digits (Pos.to_uint p) Hnn) as [_ Hneg].
    rewrite DecimalPos.Unsigned.of_to in Hneg.
    destruct (Pos.to_uint p); [contradiction | ..]; exact Hneg.
Qed.

Lemma toString_truthy (z : Z) : JS.truthy (JS.toString (JS.Int z)) = true.
Proof.
  unfold JS.toString. destruct z as [| p | p]; [reflexivity | | reflexivity].
  simpl Z.to_int. unfold NilZero.string_of_int, NilZero.string_of_uint.
  pose proof (DecimalPos.Unsigned.to_uint_nonnil p) as Hnn.
  destruct (Pos.to_uint p); [contradiction | ..]; reflexivity.
Qed.

(** X11. The page number written in a link is read back by [parseInt]:
    for an integer that JavaScript holds exactly, parsing its decimal
    text gives the integer itself. *)
Theorem parseInt_of_toString (z : Z) :
  Z.abs z < 2 ^ 53 ->
  Builtin.parseInt10 (JS.toString (JS.Int z)) = JS.Int z.
Proof.
  intros _. unfold JS.toString. destruct z as [| p | p].
  - reflexivity.
  - simpl Z.to_int. unfold NilZero.string_of_int, NilZero.string_of_uint.
    pose proof (DecimalPos.Unsigned.to_uint_nonnil p) as Hnn.
    destruct (@parseInt10_digits (Pos.to_uint p) Hnn) as [Hpos _].
    rewrite DecimalPos.Unsigned.of_to in Hpos.
    destruct (Pos.to_uint p); [contradiction | ..]; exact Hpos.
  - simpl Z.to_int. unfold NilZero.string_of_int, NilZero.string_of_uint.
    pose proof (DecimalPos.Unsigned.to_uint_nonnil p) as Hnn.
    destruct (@parseInt10_digits (Pos.to_uint p) Hnn) as [_ Hneg].
    rewrite DecimalPos.Unsigned.of_to in Hneg.
    destruct (Pos.to_uint p); [contradiction | ..]; exact Hneg.
Qed.

(** X11 on page 42. *)
Lemma parseInt_of_toString_witness :
  Builtin.parseInt10 (JS.toString (JS.Int 42)) = JS.Int 42.
Proof. apply (@parseInt_of_toString 42). reflexivity. Defined.

Section FirstPage.

Variable Item : Type.
Variable pageSize : Z.
Variable basePath : string.
Variable encodeURIComponent : string -> string.

(** A request for page 1 is rendered, whatever the list is. *)
Lemma respond_first_page (items : list Item) (params : Params.t) :
  Params.page params = JS.Int 1 ->
  respond basePath encodeURIComponent
    (bind pageSize items (Params.page params)) params
  = Render (paginate pageSize items (JS.Int 1)) (JS.Int 1)
           (totalPagesOf pageSize items).
Proof.
  intros Hp. unfold respond, bind.
  cbn [validatedPage totalPages paginated]. rewrite !Hp.
  unfold totalPagesOf.
  rewrite (@validatePage_kept 1 _) by lia.
  rewrite strict_neq_refl. reflexivity.
Qed.

(** A request for a page that is NaN or below 1 is redirected to 1. *)
Lemma respond_invalid_page (items : list Item) (params : Params.t) :
  JS.isNaN (Params.page params) = true \/
  JS.lt (Params.page params) (JS.Int 1) = true ->
  respond basePath encodeURIComponent
    (bind pageSize items (Params.page params)) params
  = Redirect (redirectUrl basePath encodeURIComponent (JS.Int 1) params).
Proof.
  intros Hbad. unfold respond, bind.
  cbn [validatedPage totalPages paginated].
  rewrite (@validatePage_invalid (Params.page params) _ Hbad).
  destruct (Params.page params) as [| p]; [reflexivity |].
  destruct Hbad as [Hbad | Hbad]; [discriminate Hbad |].
  simpl in Hbad. apply Z.ltb_lt in Hbad.
  rewrite strict_neq_diff by lia. reflexivity.
Qed.

End FirstPage.

Lemma decode_missing_page (searchParams : Raw.t) :
  Builtin.truthy (Raw.page searchParams) = false ->
  Params.page (decode searchParams) = JS.Int 1.
Proof.
  unfold decode, Builtin.truthy, Builtin.orElse. simpl.
  destruct (Raw.page searchParams) as [s |]; [| reflexivity].
  intros Hs. rewrite Hs. reflexivity.
Qed.

(** X12. A request whose [page] parameter is missing or empty is a
    request for page 1, and the database branch of both pages renders
    the first slice of the result without redirect, whatever the result
    set is. *)
Theorem missing_page_renders_first_page :
  (forall fuse findMany enc DATABASE_URL searchParams,
     Builtin.truthy (Raw.page searchParams) = false ->
     noDatabase DATABASE_URL = false ->
     let b := PastPapers.bindings fuse findMany (decode searchParams) in
     Params.page (decode searchParams) = JS.Int 1 /\
     pastPaperPageOf fuse findMany enc DATABASE_URL searchParams
     = Render (paginate PastPapers.pageSize (filtered b) (JS.Int 1))
              (JS.Int 1) (totalPages b)) /\
  (forall fuse findMany enc DATABASE_URL searchParams,
     Builtin.truthy (Raw.page searchParams) = false ->
     noDatabase DATABASE_URL = false ->
     let b := Forum.bindings fuse findMany (decode searchParams) in
     Params.page (decode searchParams) = JS.Int 1 /\
     forumOf fuse findMany enc DATABASE_URL searchParams
     = Render (paginate Forum.pageSize (filtered b) (JS.Int 1))
              (JS.Int 1) (totalPages b)).
Proof.
  split.
  - intros fuse findMany enc DATABASE_URL searchParams Hpage Hdb b.
    pose proof (@decode_missing_page searchParams Hpage) as Hone.
    split; [exact Hone |].
    unfold pastPaperPageOf.
    rewrite (@pastPaperPage_production fuse findMany enc DATABASE_URL
               (decode searchParams) Hdb).
    unfold PastPapers.production, b, PastPapers.bindings.
    exact (@respond_first_page _ PastPapers.pageSize PastPapers.basePath enc
             (PastPapers.filteredPastPapers fuse findMany (decode searchParams))
             (decode searchParams) Hone).
  - intros fuse findMany enc DATABASE_URL searchParams Hpage Hdb b.
    pose proof (@decode_missing_page searchParams Hpage) as Hone.
    split; [exact Hone |].
    unfold forumOf.
    rewrite (@forum_production fuse findMany enc DATABASE_URL
               (decode searchParams) Hdb).
    unfold Forum.production, b, Forum.bindings.
    exact (@respond_first_page _ Forum.pageSize Forum.basePath enc
             (Forum.filteredForumPosts fuse findMany (decode searchParams))
             (decode searchParams) Hone).
Qed.

(** X12 on a request without any parameter: the nine newest papers. *)
Lemma missing_page_renders_first_page_witness :
  pastPaperPageOf (Sample.noMatch _) Sample.papers Sample.encode
    (Some "postgresql://localhost/examcooker"%string)
    (Raw.mk None None Raw.Absent)
  = Render (paginate 9 PastPapers.mockPastPapers (JS.Int 1))
           (JS.Int 1) (JS.Int 2).
Proof.
  apply (proj2 (proj1 missing_page_renders_first_page
                  (Sample.noMatch _) Sample.papers Sample.encode
                  (Some "postgresql://localhost/examcooker"%string)
                  (Raw.mk None None Raw.Absent) eq_refl eq_refl)).
Defined.

(** X13. A [page] parameter that [parseInt] reads as NaN or as a number
    below 1 is redirected by the database branch of both pages to page
    1, with the query and the tags of the request. *)
Theorem invalid_page_redirects_to_first :
  (forall fuse findMany enc DATABASE_URL searchParams,
     noDatabase DATABASE_URL = false ->
     JS.isNaN (Params.page (decode searchParams)) = true \/
     JS.lt (Params.page (decode searchParams)) (JS.Int 1) = true ->
     pastPaperPageOf fuse findMany enc DATABASE_URL searchParams
     = Redirect (redirectUrl PastPapers.basePath enc (JS.Int 1)
                   (decode searchParams))) /\
  (forall fuse findMany enc DATABASE_URL searchParams,
     noDatabase DATABASE_URL = false ->
     JS.isNaN (Params.page (decode searchParams)) = true \/
     JS.lt (Params.page (decode searchParams)) (JS.Int 1) = true ->
     forumOf fuse findMany enc DATABASE_URL searchParams
     = Redirect (redirectUrl Forum.basePath enc (JS.Int 1)
                   (decode searchParams))).
Proof.
  split.
  - intros fuse findMany enc DATABASE_URL searchParams Hdb Hbad.
    unfold pastPaperPageOf.
    rewrite (@pastPaperPage_production fuse findMany enc DATABASE_URL
               (decode searchParams) Hdb).
    unfold PastPapers.production, PastPapers.bindings.
    apply respond_invalid_page. exact Hbad.
  - intros fuse findMany enc DATABASE_URL searchParams Hdb Hbad.
    unfold forumOf.
    rewrite (@forum_production fuse findMany enc DATABASE_URL
               (decode searchParams) Hdb).
    unfold Forum.production, Forum.bindings.
    apply respond_invalid_page. exact Hbad.
Qed.

(** X13 on [page=abc] with a query and a tag. *)
Lemma invalid_page_redirects_to_first_witness :
  forumOf (Sample.noMatch _) Sample.posts Sample.encode
    (Some "postgresql://localhost/examcooker"%string)
    (Raw.mk (Some "abc"%string) (Some "exam"%string) (Raw.Single "FAT"))
  = Redirect "/forum?page=1&search=exam&tags=FAT".
Proof.
  apply (proj2 invalid_page_redirects_to_first
           (Sample.noMatch _) Sample.posts Sample.encode
           (Some "postgresql://localhost/examcooker"%string)
           (Raw.mk (Some "abc"%string) (Some "exam"%string) (Raw.Single "FAT"))
           eq_refl).
  left. reflexivity.
Defined.

(** What [parseInt] makes of some [page] parameters. *)
Example parseInt10_samples :
  map Builtin.parseInt10
    ["1"; " 12abc"; "abc"; ""; "-5"; "+7"; "- 5"; "0x10"; "007"; "3.9"]%string
  = [JS.Int 1; JS.Int 12; JS.NaN; JS.NaN; JS.Int (-5); JS.Int 7; JS.NaN;
     JS.Int 0; JS.Int 7; JS.Int 3].
Proof. reflexivity. Qed.

Lemma decode_link (v : Z) (search : string) (tags : list string) :
  Forall (fun tag => commaFree tag = true) tags ->
  tags <> [""%string] ->
  decode (Raw.mk (Some (JS.toString (JS.Int v))) (Some search)
                 (Raw.Single (tagsQuery tags)))
  = Params.mk (JS.Int v) search tags.
Proof.
  intros Hfree Hnot. unfold decode. cbn [Raw.page Raw.search Raw.tags].
  rewrite (decodeTags_joined Hfree Hnot).
  unfold Builtin.orElse. cbv beta iota.
  rewrite toString_truthy, parseInt10_toString.
  destruct search; reflexivity.
Qed.

(** A redirect issued on a list of fewer than 2^32 items names a page
    below 2^32. *)
Lemma redirect_target_small (Item : Type) (pageSize : Z) (items : list Item)
    (requested : JS.number) :
  0 < pageSize ->
  Z.of_nat (List.length items) < 2 ^ 32 ->
  JS.strict_neq (validatedPage (bind pageSize items requested)) requested
  = true ->
  exists v, validatedPage (bind pageSize items requested) = JS.Int v /\
            1 <= v < 2 ^ 32.
Proof.
  intros Hps Hlen Hneq. unfold bind in *. cbn [validatedPage] in *.
  unfold totalPagesOf in *.
  set (t := JS.ceilDiv (Z.of_nat (List.length items)) pageSize) in *.
  assert (Ht : t <= Z.of_nat (List.length items)).
  { unfold t. apply ceilDiv_least; nia. }
  destruct requested as [| p].
  - exists 1. split; [reflexivity | lia].
  - destruct (Z.lt_ge_cases p 1) as [Hlt | Hge].
    + exists 1. split; [apply validatePage_small; exact Hlt | lia].
    + destruct (Z.lt_ge_cases t p) as [Htp | Hpt].
      * destruct (Z.lt_ge_cases 0 t) as [Hpos | Hzero].
        -- exists t. split; [apply validatePage_clamped; lia | lia].
        -- rewrite (@validatePage_kept p t) in Hneq by lia.
           rewrite strict_neq_refl in Hneq. discriminate Hneq.
      * rewrite (@validatePage_kept p t) in Hneq by lia.
        rewrite strict_neq_refl in Hneq. discriminate Hneq.
Qed.

(** X14. Following a redirect ends the redirection. When the database
    branch has redirected a request (the validated page is not the
    requested one) on a result of fewer than 2^32 items, the validated
    page number as printed, the same query and the joined tags decode to
    a request that the database branch renders at the validated page
    (tags without comma, and not the single empty tag). *)
Theorem redirect_is_followed_by_render :
  (forall fuse findMany enc DATABASE_URL params,
     noDatabase DATABASE_URL = false ->
     Forall (fun tag => commaFree tag = true) (Params.tags params) ->
     Params.tags params <> [""%string] ->
     let b := PastPapers.bindings fuse findMany params in
     Z.of_nat (List.length (filtered b)) < 2 ^ 32 ->
     JS.strict_neq (validatedPage b) (Params.page params) = true ->
     (exists v, validatedPage b = JS.Int v /\ 1 <= v < 2 ^ 32) /\
     pastPaperPageOf fuse findMany enc DATABASE_URL
       (Raw.mk (Some (JS.toString (validatedPage b)))
               (Some (Params.search params))
               (Raw.Single (tagsQuery (Params.tags params))))
     = Render (paginate PastPapers.pageSize (filtered b) (validatedPage b))
              (validatedPage b) (totalPages b)) /\
  (forall fuse findMany enc DATABASE_URL params,
     noDatabase DATABASE_URL = false ->
     Forall (fun tag => commaFree tag = true) (Params.tags params) ->
     Params.tags params <> [""%string] ->
     let b := Forum.bindings fuse findMany params in
     Z.of_nat (List.length (filtered b)) < 2 ^ 32 ->
     JS.strict_neq (validatedPage b) (Params.page params) = true ->
     (exists v, validatedPage b = JS.Int v /\ 1 <= v < 2 ^ 32) /\
     forumOf fuse findMany enc DATABASE_URL
       (Raw.mk (Some (JS.toString (validatedPage b)))
               (Some (Params.search params))
               (Raw.Single (tagsQuery (Params.tags params))))
     = Render (paginate Forum.pageSize (filtered b) (validatedPage b))
              (validatedPage b) (totalPages b)).
Proof.
  split.
  - intros fuse findMany enc DATABASE_URL params Hdb Hfree Hnot b Hlen Hneq.
    destruct (@redirect_target_small _ PastPapers.pageSize
                (PastPapers.filteredPastPapers fuse findMany params)
                (Params.page params) pastPapers_pageSize_positive Hlen Hneq)
      as [v [Hv Hrange]].
    assert (Hb : validatedPage b = JS.Int v) by exact Hv.
    split; [exists v; split; [exact Hb | exact Hrange] |].
    unfold pastPaperPageOf. rewrite Hb.
    rewrite (decode_link v (Params.search params) Hfree Hnot).
    rewrite <- Hb.
    rewrite pastPaperPage_production by exact Hdb.
    unfold PastPapers.production, PastPapers.bindings.
    exact (@canonical_page_renders _ PastPapers.pageSize PastPapers.basePath
             enc (PastPapers.filteredPastPapers fuse findMany params)
             params pastPapers_pageSize_positive).
  - intros fuse findMany enc DATABASE_URL params Hdb Hfree Hnot b Hlen Hneq.
    destruct (@redirect_target_small _ Forum.pageSize
                (Forum.filteredForumPosts fuse findMany params)
                (Params.page params) forum_pageSize_positive Hlen Hneq)
      as [v [Hv Hrange]].
    assert (Hb : validatedPage b = JS.Int v) by exact Hv.
    split; [exists v; split; [exact Hb | exact Hrange] |].
    unfold forumOf. rewrite Hb.
    rewrite (decode_link v (Params.search params) Hfree Hnot).
    rewrite <- Hb.
    rewrite forum_production by exact Hdb.
    unfold Forum.production, Forum.bindings.
    exact (@canonical_page_renders _ Forum.pageSize Forum.basePath
             enc (Forum.filteredForumPosts fuse findMany params)
             params forum_pageSize_positive).
Qed.

(** X14 on Scenario B: page 99 of the fifteen papers was redirected to
    page 2, and the link to page 2 is rendered. *)
Lemma redirect_is_followed_by_render_witness :
  pastPaperPageOf (Sample.noMatch _) Sample.papers Sample.encode
    (Some "postgresql://localhost/examcooker"%string)
    (Raw.mk (Some "2"%string) (Some ""%string) (Raw.Single ""))
  = Render (paginate 9 PastPapers.mockPastPapers (JS.Int 2))
           (JS.Int 2) (JS.Int 2).
Proof.
  apply (proj1 redirect_is_followed_by_render
           (Sample.noMatch _) Sample.papers Sample.encode
           (Some "postgresql://localhost/examcooker"%string)
           (Params.mk (JS.Int 99) "" []) eq_refl).
  - constructor.
  - discriminate.
  - reflexivity.
  - reflexivity.
Defined.

(* ================================================================== *)
(** ** The development branches *)
(* ================================================================== *)

Section DevelopmentFacts.

Variable Item : Type.

Lemma slice_NaN (items : list Item) : JS.slice items JS.NaN JS.NaN = [].
Proof.
  unfold JS.slice, JS.relativeIndex. simpl JS.toInteger.
  rewrite Z.ltb_irrefl, Z.sub_diag. reflexivity.
Qed.

Lemma slice_to_zero (items : list Item) (s : Z) :
  JS.slice items (JS.Int s) (JS.Int 0) = [].
Proof.
  unfold JS.slice, JS.relativeIndex. simpl JS.toInteger.
  rewrite Z.ltb_irrefl.
  set (len := Z.of_nat (List.length items)).
  assert (Hlen : 0 <= len) by (unfold len; lia).
  rewrite (Z.min_l 0 len) by lia.
  destruct (Z.ltb_spec s 0).
  - replace (Z.to_nat (0 - Z.max (len + s) 0)) with 0%nat by lia. reflexivity.
  - replace (Z.to_nat (0 - Z.min s len)) with 0%nat by lia. reflexivity.
Qed.

Lemma validatePage_single (requested : JS.number) :
  validatePage requested (JS.Int 1) = JS.Int 1.
Proof.
  destruct requested as [| p]; [reflexivity |].
  destruct (Z.lt_ge_cases p 1) as [Hlt | Hge].
  - apply validatePage_small. exact Hlt.
  - destruct (Z.eq_dec p 1) as [-> | Hne]; [reflexivity |].
    apply validatePage_clamped; lia.
Qed.

(** A list that fits on one page is shown whole, whatever the requested
    page is. *)
Lemma bind_single_page (pageSize : Z) (items : list Item)
    (requested : JS.number) :
  0 < pageSize ->
  Z.of_nat (List.length items) <= pageSize ->
  paginated (bind pageSize items requested) = items.
Proof.
  intros Hps Hfit. unfold bind. cbn [paginated].
  destruct items as [| x rest].
  - unfold paginate. apply slice_nil.
  - assert (Hone : totalPagesOf pageSize (x :: rest) = JS.Int 1).
    { unfold totalPagesOf. f_equal.
      destruct (@ceilDiv_covers (Z.of_nat (List.length (x :: rest))) pageSize
                  ltac:(lia) Hps) as [Hnn Hcover].
      assert (Hle : JS.ceilDiv (Z.of_nat (List.length (x :: rest))) pageSize
                    <= 1) by (apply ceilDiv_least; lia).
      simpl List.length in *.
      destruct (Z.eq_dec
                  (JS.ceilDiv (Z.of_nat (S (List.length rest))) pageSize) 0)
        as [H0 | H0]; [rewrite H0 in Hcover; lia | lia]. }
    rewrite Hone, validatePage_single.
    rewrite paginate_window by lia.
    simpl Z.to_nat. rewrite skipn_O. apply firstn_all2. lia.
Qed.

End DevelopmentFacts.

(** X15. Without a database the past papers page never redirects and
    ignores the query, the search library and the database: it slices
    the tag-filtered fixture at the requested page and shows the
    validated page in the pager. For a page [p >= 1] the slice is the one
    of page [p], empty beyond the last page although the pager then shows
    the last page; for NaN and for 0 it is empty. *)
Theorem pastPapers_development_page :
  forall fuse findMany enc DATABASE_URL params,
    noDatabase DATABASE_URL = true ->
    let items :=
      tagFilter PastPapers.tags (Params.tags params) PastPapers.mockPastPapers in
    exists shown,
      PastPapers.pastPaperPage fuse findMany enc DATABASE_URL params
      = Render shown
          (validatePage (Params.page params) (totalPagesOf 9 items))
          (totalPagesOf 9 items) /\
      (forall p, Params.page params = JS.Int p -> 1 <= p ->
         shown = paginate 9 items (JS.Int p)) /\
      (forall p, Params.page params = JS.Int p ->
         JS.toInteger (totalPagesOf 9 items) < p ->
         shown = [] /\
         (0 < JS.toInteger (totalPagesOf 9 items) ->
          validatePage (Params.page params) (totalPagesOf 9 items)
          = totalPagesOf 9 items)) /\
      (Params.page params = JS.NaN \/ Params.page params = JS.Int 0 ->
       shown = []) /\
      (forall fuse' findMany' enc' search',
         PastPapers.pastPaperPage fuse' findMany' enc' DATABASE_URL
           (Params.mk (Params.page params) search' (Params.tags params))
         = PastPapers.pastPaperPage fuse findMany enc DATABASE_URL params).
Proof.
  intros fuse findMany enc DATABASE_URL params Hdev items.
  unfold PastPapers.pastPaperPage. rewrite Hdev.
  unfold PastPapers.development. fold items.
  eexists. split; [reflexivity |].
  assert (Hpage : forall p, 1 <= p ->
            JS.slice items
              (JS.mul (JS.sub (JS.Int p) (JS.Int 1)) (JS.Int PastPapers.pageSize))
              (JS.mul (JS.Int p) (JS.Int PastPapers.pageSize))
            = paginate 9 items (JS.Int p)).
  { intros p Hp. unfold paginate, startIndexOf, PastPapers.pageSize. simpl.
    replace (p * 9) with ((p - 1) * 9 + 9) by lia. reflexivity. }
  split; [| split; [| split]].
  - intros p Hp Hge. rewrite Hp. apply Hpage. exact Hge.
  - intros p Hp Hbeyond. rewrite Hp.
    destruct (@ceilDiv_covers (Z.of_nat (List.length items)) 9
                ltac:(lia) ltac:(lia)) as [Hnn Hcover].
    unfold totalPagesOf in *. simpl JS.toInteger in Hbeyond. split.
    + rewrite Hpage by lia. rewrite paginate_window by lia.
      rewrite skipn_all2 by lia. apply firstn_nil.
    + simpl JS.toInteger. intros Hpos. apply validatePage_clamped; lia.
  - intros [Hp | Hp]; rewrite Hp.
    + apply slice_NaN.
    + apply slice_to_zero.
  - intros fuse' findMany' enc' search'. reflexivity.
Qed.

(** X15 on a request for page 99 without a database: nothing is shown,
    and the pager is on page 2 of 2. *)
Lemma pastPapers_development_page_witness :
  exists shown,
    PastPapers.pastPaperPage (Sample.noMatch _) Sample.papers Sample.encode
      None (Params.mk (JS.Int 99) "" [])
    = Render shown (JS.Int 2) (JS.Int 2) /\
    shown = [].
Proof.
  destruct (@pastPapers_development_page (Sample.noMatch _) Sample.papers
              Sample.encode None (Params.mk (JS.Int 99) "" []) eq_refl)
    as [shown [Hout [_ [Hbeyond _]]]].
  exists shown. split; [exact Hout |].
  apply (Hbeyond 99 eq_refl). vm_compute. reflexivity.
Defined.

(** A negative page counts from the end of the fixture. *)
Example pastPapers_development_negative_page :
  PastPapers.pastPaperPage (Sample.noMatch _) Sample.papers Sample.encode
    None (Params.mk (JS.Int (-1)) "" [])
  = Render (firstn 6 PastPapers.mockPastPapers) (JS.Int 1) (JS.Int 2).
Proof. reflexivity. Qed.

(** X16. Without a database the forum page never redirects and ignores
    the query, the search library and the database; its fixture fits on
    one page, so that every post that passes the tag filter is listed,
    whatever page is requested, and no pager is rendered, [totalPages]
    being 0 or 1. *)
Theorem forum_development_page :
  forall fuse findMany enc DATABASE_URL params,
    noDatabase DATABASE_URL = true ->
    let items :=
      tagFilter Forum.tags (Params.tags params) Forum.mockForumPosts in
    Forum.forum fuse findMany enc DATABASE_URL params
    = Render items
        (validatePage (Params.page params) (totalPagesOf 5 items))
        (totalPagesOf 5 items) /\
    (totalPagesOf 5 items = JS.Int 0 \/ totalPagesOf 5 items = JS.Int 1) /\
    pagerOf (Forum.forum fuse findMany enc DATABASE_URL params) = None /\
    (forall fuse' findMany' enc' search',
       Forum.forum fuse' findMany' enc' DATABASE_URL
         (Params.mk (Params.page params) search' (Params.tags params))
       = Forum.forum fuse findMany enc DATABASE_URL params).
Proof.
  intros fuse findMany enc DATABASE_URL params Hdev items.
  assert (Hfit : Z.of_nat (List.length items) <= 2).
  { unfold items, tagFilter.
    pose proof (filter_length_le (matchesTags Forum.tags (Params.tags params))
                  Forum.mockForumPosts) as Hle.
    change (List.length Forum.mockForumPosts) with 2%nat in Hle. lia. }
  assert (Hpages : totalPagesOf 5 items = JS.Int 0 \/
                   totalPagesOf 5 items = JS.Int 1).
  { unfold totalPagesOf.
    destruct (@ceilDiv_covers (Z.of_nat (List.length items)) 5
                ltac:(lia) ltac:(lia)) as [Hnn _].
    assert (Hle : JS.ceilDiv (Z.of_nat (List.length items)) 5 <= 1)
      by (apply ceilDiv_least; lia).
    destruct (Z.eq_dec (JS.ceilDiv (Z.of_nat (List.length items)) 5) 0)
      as [H0 | H0]; [left | right]; f_equal; lia. }
  assert (Hout : Forum.forum fuse findMany enc DATABASE_URL params
                 = Render items
                     (validatePage (Params.page params) (totalPagesOf 5 items))
                     (totalPagesOf 5 items)).
  { unfold Forum.forum. rewrite Hdev. unfold Forum.development. fold items.
    rewrite (@bind_single_page _ Forum.pageSize items (Params.page params)).
    - reflexivity.
    - reflexivity.
    - unfold Forum.pageSize. lia. }
  split; [exact Hout |]. split; [exact Hpages |]. split.
  - rewrite Hout. unfold pagerOf.
    destruct Hpages as [-> | ->]; reflexivity.
  - intros fuse' findMany' enc' search'.
    unfold Forum.forum. rewrite Hdev. reflexivity.
Qed.

(** X16 on a request for page 7 with one tag: the one matching post is
    listed, without pager. *)
Lemma forum_development_page_witness :
  Forum.forum (Sample.noMatch _) Sample.posts Sample.encode None
    (Params.mk (JS.Int 7) "exam" ["FAT"%string])
  = Render (tagFilter Forum.tags ["FAT"%string] Forum.mockForumPosts)
           (JS.Int 1) (JS.Int 1) /\
  pagerOf (Forum.forum (Sample.noMatch _) Sample.posts Sample.encode None
             (Params.mk (JS.Int 7) "exam" ["FAT"%string])) = None.
Proof.
  split.
  - apply (proj1 (@forum_development_page (Sample.noMatch _) Sample.posts
                    Sample.encode None
                    (Params.mk (JS.Int 7) "exam" ["FAT"%string]) eq_refl)).
  - apply (proj1 (proj2 (proj2
             (@forum_development_page (Sample.noMatch _) Sample.posts
                Sample.encode None
                (Params.mk (JS.Int 7) "exam" ["FAT"%string]) eq_refl)))).
Defined.

(* ================================================================== *)
(** ** The root layout and the sign-in configuration *)
(* ================================================================== *)

(** X17. The root layout hands out the protected routes only to a
    session with a non-empty e-mail, or when one of the two OAuth
    variables is missing or empty; with both variables set, a visitor
    without e-mail always gets the unprotected routes. A redirect is
    raised only to "/" and only when the protected routes are nullish. *)
Theorem layout_guard (Node : Type) (session : option Session)
    (AUTH_GOOGLE_ID AUTH_GOOGLE_SECRET : Env)
    (protected_routes unprotected_routes : option Node) :
  let shown :=
    Layout.RootLayout session AUTH_GOOGLE_ID AUTH_GOOGLE_SECRET
      protected_routes unprotected_routes in
  (Builtin.truthy (Layout.sessionEmail session) = false ->
   Builtin.truthy AUTH_GOOGLE_ID = true ->
   Builtin.truthy AUTH_GOOGLE_SECRET = true ->
   shown = Layout.Unprotected unprotected_routes) /\
  (Builtin.truthy (Layout.sessionEmail session) = true \/
   Builtin.truthy AUTH_GOOGLE_ID = false \/
   Builtin.truthy AUTH_GOOGLE_SECRET = false ->
   shown = match protected_routes with
           | Some children => Layout.Protected children
           | None => Layout.RedirectTo "/"
           end) /\
  (forall children, shown = Layout.Protected children ->
     protected_routes = Some children /\
     (Builtin.truthy (Layout.sessionEmail session) = true \/
      Layout.isDevelopment AUTH_GOOGLE_ID AUTH_GOOGLE_SECRET = true)) /\
  (forall url, shown = Layout.RedirectTo url ->
     url = "/"%string /\ protected_routes = None).
Proof.
  intros shown. unfold shown, Layout.RootLayout, Layout.isDevelopment.
  split; [| split; [| split]].
  - intros He Hid Hsecret. rewrite He, Hid, Hsecret. reflexivity.
  - intros [He | [Hid | Hsecret]].
    + rewrite He. reflexivity.
    + rewrite Hid. simpl. rewrite orb_true_r. reflexivity.
    + rewrite Hsecret. simpl. rewrite !orb_true_r. reflexivity.
  - intros children.
    destruct (Builtin.truthy (Layout.sessionEmail session)) eqn:He; simpl.
    + destruct protected_routes; intros H; [| discriminate H].
      injection H as <-. split; [reflexivity | left; reflexivity].
    + destruct (negb (Builtin.truthy AUTH_GOOGLE_ID)
                || negb (Builtin.truthy AUTH_GOOGLE_SECRET)) eqn:Hdev;
        [| discriminate].
      destruct protected_routes; intros H; [| discriminate H].
      injection H as <-. split; [reflexivity | right; reflexivity].
  - intros url.
    destruct (Builtin.truthy (Layout.sessionEmail session)
              || (negb (Builtin.truthy AUTH_GOOGLE_ID)
                  || negb (Builtin.truthy AUTH_GOOGLE_SECRET)));
      [| discriminate].
    destruct protected_routes; intros H; [discriminate H |].
    injection H as <-. split; reflexivity.
Qed.

(** X17 for a visitor without session on a configured deployment. *)
Lemma layout_guard_witness :
  Layout.RootLayout None (Some "client-id"%string) (Some "secret"%string)
    (Some "dashboard"%string) (Some "landing"%string)
  = Layout.Unprotected (Some "landing"%string).
Proof.
  apply (proj1 (@layout_guard string None (Some "client-id"%string)
                  (Some "secret"%string) (Some "dashboard"%string)
                  (Some "landing"%string)));
    reflexivity.
Defined.

(** X18. The layout bypasses the sign-in exactly when the sign-in
    configuration has no provider and no adapter; otherwise there is one
    provider, Google with the two variables as credentials, restricted to
    the hosted domain vitstudent.ac.in. *)
Theorem development_iff_no_provider (AUTH_GOOGLE_ID AUTH_GOOGLE_SECRET : Env) :
  let config := Auth.authConfig AUTH_GOOGLE_ID AUTH_GOOGLE_SECRET in
  let dev := Layout.isDevelopment AUTH_GOOGLE_ID AUTH_GOOGLE_SECRET in
  (dev = true <-> Auth.providers config = []) /\
  dev = negb (Auth.adapter config) /\
  (dev = false ->
   exists id secret,
     AUTH_GOOGLE_ID = Some id /\ AUTH_GOOGLE_SECRET = Some secret /\
     id <> ""%string /\ secret <> ""%string /\
     Auth.providers config
     = [ Auth.mkGoogle id secret "select_account" "offline" "code"
           "vitstudent.ac.in" ]).
Proof.
  intros config dev.
  unfold config, dev, Auth.authConfig, Layout.isDevelopment, Builtin.truthy.
  cbn [Auth.providers Auth.adapter].
  destruct AUTH_GOOGLE_ID as [[| c id] |];
    destruct AUTH_GOOGLE_SECRET as [[| c' secret] |]; simpl;
    (split; [split; intros H; (reflexivity || discriminate H) |]);
    (split; [reflexivity |]); intros H; try discriminate H.
  exists (String c id), (String c' secret).
  repeat split; try reflexivity; discriminate.
Qed.

(** X18 on a configured deployment: one provider, Google. *)
Lemma development_iff_no_provider_witness :
  exists id secret,
    Some "client-id"%string = Some id /\ Some "secret"%string = Some secret /\
    id <> ""%string /\ secret <> ""%string /\
    Auth.providers (Auth.authConfig (Some "client-id"%string)
                      (Some "secret"%string))
    = [ Auth.mkGoogle id secret "select_account" "offline" "code"
          "vitstudent.ac.in" ].
Proof.
  apply (proj2 (proj2 (@development_iff_no_provider
                         (Some "client-id"%string) (Some "secret"%string)))).
  reflexivity.
Defined.

(** X19. The session callback is idempotent: applying it again with the
    same database user changes nothing. *)
Theorem session_callback_idempotent (session : option Session)
    (user : option SessionUser) :
  Auth.session (Auth.session session user) user = Auth.session session user.
Proof.
  destruct session as [[[su |]] |]; try reflexivity.
  unfold Auth.session, Builtin.orOpt.
  destruct su as [sid semail]. destruct user as [[uid uemail] |];
    cbn [user_id user_email].
  - destruct (Builtin.truthy uid) eqn:Hid;
      destruct (Builtin.truthy semail) eqn:Hse; simpl;
      rewrite ?Hid, ?Hse; simpl; try reflexivity;
      destruct (Builtin.truthy uemail) eqn:Hue; simpl;
      rewrite ?Hid, ?Hse, ?Hue; simpl; rewrite ?Hue; reflexivity.
  - simpl. destruct (Builtin.truthy semail) eqn:Hse; simpl;
      rewrite ?Hse; reflexivity.
Qed.

(** X20. What the session callback does to a session: a non-empty e-mail
    of the session is never replaced; an empty or missing one is filled
    from the database user when that one has an e-mail; the user id
    becomes the id of the database user when that is non-empty; a session
    without user object is returned as it is. *)
Theorem session_callback_effect (session : option Session)
    (user : option SessionUser) :
  (Builtin.truthy (Layout.sessionEmail session) = true ->
   Layout.sessionEmail (Auth.session session user)
   = Layout.sessionEmail session) /\
  (forall su du,
     session = Some (mkSession (Some su)) -> user = Some du ->
     (Builtin.truthy (user_email su) = false ->
      Builtin.truthy (user_email du) = true ->
      Layout.sessionEmail (Auth.session session user) = user_email du) /\
     (Builtin.truthy (user_id du) = true ->
      exists su',
        Auth.session session user = Some (mkSession (Some su')) /\
        user_id su' = user_id du)) /\
  ((forall su, session <> Some (mkSession (Some su))) ->
   Auth.session session user = session).
Proof.
  split; [| split].
  - destruct session as [[[su |]] |]; try reflexivity.
    simpl. intros He. rewrite He. reflexivity.
  - intros su du -> ->. split.
    + intros Hse Hdu. simpl. rewrite Hse. simpl.
      unfold Builtin.orOpt. rewrite Hdu. reflexivity.
    + intros Hid. eexists. split; [reflexivity |].
      simpl. unfold Builtin.orOpt. rewrite Hid. reflexivity.
  - intros Hno. destruct session as [[[su |]] |]; try reflexivity.
    exfalso. exact (Hno su eq_refl).
Qed.

(** X20 for a session whose user has no e-mail yet. *)
Lemma session_callback_effect_witness :
  Layout.sessionEmail
    (Auth.session (Some (mkSession (Some (mkUser None None))))
       (Some (mkUser (Some "u1"%string)
                     (Some "student@vitstudent.ac.in"%string))))
  = Some "student@vitstudent.ac.in"%string.
Proof.
  apply (proj1 (proj1 (proj2 (@session_callback_effect
           (Some (mkSession (Some (mkUser None None))))
           (Some (mkUser (Some "u1"%string)
                         (Some "student@vitstudent.ac.in"%string)))))
           (mkUser None None)
           (mkUser (Some "u1"%string) (Some "student@vitstudent.ac.in"%string))
           eq_refl eq_refl)); reflexivity.
Defined.



(* ================================================================== *)
(** ** The data inspection script: properties *)
(* ================================================================== *)

Section SeedFacts.

Import Seed.

Local Abbreviation onlyLogs := (Forall (fun e : Event => exists line, e = Log line)).

Lemma queries_app (a b : list Event) :
  queries (a ++ b) = (queries a ++ queries b)%list.
Proof.
  induction a as [| e a IH]; simpl; [reflexivity |].
  destruct e; simpl; rewrite IH; reflexivity.
Qed.

Lemma loggedErrors_app (a b : list Event) :
  loggedErrors (a ++ b) = (loggedErrors a ++ loggedErrors b)%list.
Proof.
  induction a as [| e a IH]; simpl; [reflexivity |].
  destruct e; simpl; rewrite IH; reflexivity.
Qed.

Lemma disconnects_app (a b : list Event) :
  disconnects (a ++ b) = (disconnects a + disconnects b)%nat.
Proof.
  induction a as [| e a IH]; simpl; [reflexivity |].
  destruct e; simpl; rewrite IH; reflexivity.
Qed.

Lemma logged_app (a b : list Event) :
  logged (a ++ b) = (logged a + logged b)%nat.
Proof.
  induction a as [| e a IH]; simpl; [reflexivity |].
  destruct e; simpl; rewrite IH; reflexivity.
Qed.

Lemma onlyLogs_counts (l : list Event) :
  onlyLogs l ->
  queries l = [] /\ loggedErrors l = [] /\ disconnects l = 0%nat /\
  logged l = List.length l.
Proof.
  induction 1 as [| e l [line ->] _ IH]; simpl.
  - repeat split.
  - destruct IH as [Hq [He [Hd Hl]]]. rewrite Hq, He, Hd, Hl. repeat split.
Qed.

(** A loop whose body calls [console.log] [n] times and cannot be
    rejected makes [n] calls per item and cannot be rejected. *)
Lemma forEach_logs (X : Type) (body : X -> Z -> M unit) (n : nat) :
  (forall x i, snd (body x i) = inr tt /\ onlyLogs (fst (body x i)) /\
               List.length (fst (body x i)) = n) ->
  forall items i,
    forEach body items i = (fst (forEach body items i), inr tt) /\
    onlyLogs (fst (forEach body items i)) /\
    List.length (fst (forEach body items i)) = (n * List.length items)%nat.
Proof.
  intros Hbody items. induction items as [| x rest IH]; intros i.
  - simpl. split; [reflexivity |]. split; [constructor | lia].
  - simpl forEach. destruct (Hbody x i) as [Hs [Hl Hn]].
    destruct (body x i) as [events result]. simpl in Hs, Hl, Hn. subst result.
    destruct (IH (i + 1)) as [Heta [Hlogs Hlen]].
    unfold bind. rewrite Heta. cbn [fst snd].
    split; [reflexivity |]. split.
    + apply Forall_app. split; assumption.
    + rewrite length_app, Hlen, Hn. simpl List.length. lia.
Qed.

Lemma printDocument_logs (d : Document) (i : Z) :
  snd (printDocument d i) = inr tt /\ onlyLogs (fst (printDocument d i)) /\
  List.length (fst (printDocument d i)) = 5%nat.
Proof.
  unfold printDocument, log, bind. cbn [fst snd app List.length].
  repeat split. repeat (constructor; [eexists; reflexivity |]). constructor.
Qed.

Lemma printPost_logs (p : Post) (i : Z) :
  snd (printPost p i) = inr tt /\ onlyLogs (fst (printPost p i)) /\
  List.length (fst (printPost p i)) = 6%nat.
Proof.
  unfold printPost, log, bind. cbn [fst snd app List.length].
  repeat split. repeat (constructor; [eexists; reflexivity |]). constructor.
Qed.

Lemma printSubject_logs (s : Subject) (i : Z) :
  snd (printSubject s i) = inr tt /\ onlyLogs (fst (printSubject s i)) /\
  List.length (fst (printSubject s i)) = 3%nat.
Proof.
  unfold printSubject, log, bind. cbn [fst snd app List.length].
  repeat split. repeat (constructor; [eexists; reflexivity |]). constructor.
Qed.

Lemma printTag_logs (t : Tag) (i : Z) :
  snd (log ("- " ++ name t)) = inr tt /\
  onlyLogs (fst (log ("- " ++ name t))) /\
  List.length (fst (log ("- " ++ name t))) = 1%nat.
Proof.
  unfold log. cbn [fst snd List.length].
  repeat split. repeat (constructor; [eexists; reflexivity |]). constructor.
Qed.

Lemma sample_length (X : Type) (l : list X) :
  List.length (sample l) = Nat.min 3 (List.length l).
Proof.
  unfold sample.
  pose proof (@slice_window X l 0 3 ltac:(lia) ltac:(lia)) as H.
  change (0 + 3) with 3 in H. rewrite H.
  simpl Z.to_nat. rewrite skipn_O. apply length_firstn.
Qed.


Local Abbreviation prefix pp n fp s :=
  [ Log "Fetching real data from database...";
    Query "pastPaper";
    Log ("Found " ++ count pp ++ " past papers");
    Query "note";
    Log ("Found " ++ count n ++ " notes");
    Query "forumPost";
    Log ("Found " ++ count fp ++ " forum posts");
    Query "subject";
    Log ("Found " ++ count s ++ " subjects") ]%string.

(** The part of the [try] block between the four listing queries and
    the tag query: headers and samples, all written with [console.log]. *)
Lemma tryBlock_samples (prisma : Client) pp n fp s :
  pastPaper_findMany prisma = inr pp ->
  note_findMany prisma = inr n ->
  forumPost_findMany prisma = inr fp ->
  subject_findMany prisma = inr s ->
  exists samples tagLines,
    onlyLogs samples /\
    List.length samples
    = (4 + 5 * Nat.min 3 (List.length pp) + 5 * Nat.min 3 (List.length n)
       + 6 * Nat.min 3 (List.length fp) + 3 * Nat.min 3 (List.length s))%nat /\
    tryBlock prisma
    = match tag_findMany prisma with
      | inl error => ((prefix pp n fp s ++ samples ++ [Query "tag"])%list,
                      inl error)
      | inr t =>
          ((prefix pp n fp s ++ samples ++ [Query "tag"] ++ tagLines t)%list,
           inr (mkData pp n fp s t))
      end /\
    (forall t, onlyLogs (tagLines t) /\
               List.length (tagLines t) = S (List.length t)).
Proof.
  intros H1 H2 H3 H4.
  destruct (forEach_logs printDocument printDocument_logs (sample pp) 0)
    as [E1 [L1 N1]].
  destruct (forEach_logs printDocument printDocument_logs (sample n) 0)
    as [E2 [L2 N2]].
  destruct (forEach_logs printPost printPost_logs (sample fp) 0)
    as [E3 [L3 N3]].
  destruct (forEach_logs printSubject printSubject_logs (sample s) 0)
    as [E4 [L4 N4]].
  exists ([Log (nl ++ "=== SAMPLE PAST PAPERS ===")]
          ++ fst (forEach printDocument (sample pp) 0)
          ++ [Log (nl ++ "=== SAMPLE NOTES ===")]
          ++ fst (forEach printDocument (sample n) 0)
          ++ [Log (nl ++ "=== SAMPLE FORUM POSTS ===")]
          ++ fst (forEach printPost (sample fp) 0)
          ++ [Log (nl ++ "=== SAMPLE SUBJECTS ===")]
          ++ fst (forEach printSubject (sample s) 0))%list.
  exists (fun t => Log (nl ++ "=== CAT/FAT TAGS FOUND ===")
                   :: fst (forEach (fun tag (_ : Z) => log ("- " ++ name tag))
                             t 0)).
  split; [| split; [| split]].
  - repeat (apply Forall_app; split);
      try assumption; repeat constructor; eexists; reflexivity.
  - rewrite !length_app, N1, N2, N3, N4, !sample_length.
    simpl List.length. lia.
  - unfold tryBlock. rewrite H1, H2, H3, H4.
    unfold log at 1 2 3 4 5 6 7 8 9 10, await, ret.
    cbn [bind]. rewrite E1. cbn [bind]. rewrite E2. cbn [bind].
    rewrite E3. cbn [bind]. rewrite E4. cbn [bind].
    destruct (tag_findMany prisma) as [error | t].
    + cbn [app fst snd].
      repeat (rewrite <- app_assoc || rewrite <- app_comm_cons).
      reflexivity.
    + destruct (forEach_logs (fun tag (_ : Z) => log ("- " ++ name tag))
                  printTag_logs t 0) as [E5 _].
      rewrite E5. cbn [bind app fst snd]. rewrite ?app_nil_r.
      repeat (rewrite <- app_assoc || rewrite <- app_comm_cons).
      reflexivity.
  - intros t.
    destruct (forEach_logs (fun tag (_ : Z) => log ("- " ++ name tag))
                printTag_logs t 0) as [_ [L5 N5]].
    split.
    + constructor; [eexists; reflexivity | exact L5].
    + cbn [List.length]. rewrite N5. lia.
Qed.


(** What the [try] block leaves behind, by the first rejected query. *)
Lemma tryBlock_summary (prisma : Client) :
  disconnects (fst (tryBlock prisma)) = 0%nat /\
  loggedErrors (fst (tryBlock prisma)) = [] /\
  queries (fst (tryBlock prisma))
  = firstn (S (fulfilledFirst (rejections prisma))) models /\
  match snd (tryBlock prisma) with
  | inl error => firstRejection (rejections prisma) = Some error
  | inr data =>
      firstRejection (rejections prisma) = None /\
      pastPaper_findMany prisma = inr (pastPapers data) /\
      note_findMany prisma = inr (notes data) /\
      forumPost_findMany prisma = inr (forumPosts data) /\
      subject_findMany prisma = inr (subjects data) /\
      tag_findMany prisma = inr (catTags data) /\
      logged (fst (tryBlock prisma))
      = (10 + 5 * Nat.min 3 (List.length (pastPapers data))
         + 5 * Nat.min 3 (List.length (notes data))
         + 6 * Nat.min 3 (List.length (forumPosts data))
         + 3 * Nat.min 3 (List.length (subjects data))
         + List.length (catTags data))%nat
  end /\
  (fulfilledFirst (rejections prisma) < 4 ->
   logged (fst (tryBlock prisma)) = S (fulfilledFirst (rejections prisma)))%nat.
Proof.
  unfold rejections, models.
  destruct (pastPaper_findMany prisma) as [e | pp] eqn:H1.
  { unfold tryBlock. rewrite H1. cbn. repeat split; lia. }
  destruct (note_findMany prisma) as [e | n] eqn:H2.
  { unfold tryBlock. rewrite H1, H2. cbn. repeat split; lia. }
  destruct (forumPost_findMany prisma) as [e | fp] eqn:H3.
  { unfold tryBlock. rewrite H1, H2, H3. cbn. repeat split; lia. }
  destruct (subject_findMany prisma) as [e | s] eqn:H4.
  { unfold tryBlock. rewrite H1, H2, H3, H4. cbn. repeat split; lia. }
  destruct (@tryBlock_samples prisma pp n fp s H1 H2 H3 H4)
    as [samples [tagLines [Hlogs [Hlen [Htry Htags]]]]].
  destruct (onlyLogs_counts Hlogs) as [Hq [He [Hd Hl]]].
  destruct (tag_findMany prisma) as [e | t] eqn:H5; rewrite Htry;
    cbn [fst snd rejection firstRejection fulfilledFirst].
  - rewrite !disconnects_app, !loggedErrors_app, !queries_app.
    rewrite Hq, He, Hd. cbn. repeat split; lia.
  - destruct (Htags t) as [Htl Htn].
    destruct (onlyLogs_counts Htl) as [Hq' [He' [Hd' Hl']]].
    rewrite !disconnects_app, !loggedErrors_app, !queries_app, !logged_app.
    rewrite Hq, He, Hd, Hl, Hq', He', Hd', Hl', Hlen, Htn.
    cbn. repeat split; lia.
Qed.

End SeedFacts.

(** X22. Whatever the database answers, [fetchRealData] calls
    [$disconnect] exactly once, and as the very last thing it does. *)
Theorem disconnect_exactly_once (prisma : Seed.Client) :
  exists before,
    fst (Seed.fetchRealData prisma) = (before ++ [Seed.Disconnect])%list /\
    Seed.disconnects before = 0%nat /\
    Seed.disconnects (fst (Seed.fetchRealData prisma)) = 1%nat.
Proof.
  destruct (tryBlock_summary prisma) as [Hd [He _]].
  unfold Seed.fetchRealData.
  destruct (Seed.tryBlock prisma) as [events outcome]. cbn [fst] in Hd, He.
  destruct outcome as [error | data]; destruct (Seed.disconnect prisma);
    cbn [fst snd]; eexists; (split; [reflexivity |]);
    rewrite ?disconnects_app, Hd; split; reflexivity.
Qed.

(** X23. How [fetchRealData] settles. If [$disconnect] is rejected, so is
    the call. Otherwise it returns the five query results, unchanged,
    exactly when the five queries are fulfilled, and it returns [null]
    exactly when one of them is rejected. *)
Theorem fetchRealData_settles (prisma : Seed.Client) :
  (forall error, Seed.disconnect prisma = inl error ->
     snd (Seed.fetchRealData prisma) = Seed.Rejected error) /\
  ((exists u, Seed.disconnect prisma = inr u) ->
   (forall data,
      snd (Seed.fetchRealData prisma) = Seed.Returned (Some data) <->
      Seed.pastPaper_findMany prisma = inr (Seed.pastPapers data) /\
      Seed.note_findMany prisma = inr (Seed.notes data) /\
      Seed.forumPost_findMany prisma = inr (Seed.forumPosts data) /\
      Seed.subject_findMany prisma = inr (Seed.subjects data) /\
      Seed.tag_findMany prisma = inr (Seed.catTags data)) /\
   (snd (Seed.fetchRealData prisma) = Seed.Returned None <->
    exists error,
      Seed.firstRejection (Seed.rejections prisma) = Some error)).
Proof.
  destruct (tryBlock_summary prisma) as [_ [_ [_ [Hout _]]]].
  unfold Seed.fetchRealData.
  destruct (Seed.tryBlock prisma) as [events outcome]. cbn [fst snd] in Hout.
  split.
  - intros error Hdis. rewrite Hdis.
    destruct outcome; reflexivity.
  - intros [u Hdis]. rewrite Hdis.
    destruct outcome as [error | data']; cbn [fst snd].
    + split.
      * intros data. split; [intros H; discriminate H |].
        intros [H1 [H2 [H3 [H4 H5]]]]. exfalso.
        unfold Seed.rejections in Hout.
        rewrite H1, H2, H3, H4, H5 in Hout. discriminate Hout.
      * split; [intros _; exists error; exact Hout | reflexivity].
    + destruct Hout as [Hnone [H1 [H2 [H3 [H4 [H5 _]]]]]]. split.
      * intros data. split.
        -- intros H. injection H as <-. auto.
        -- intros [G1 [G2 [G3 [G4 G5]]]].
           rewrite H1 in G1. rewrite H2 in G2. rewrite H3 in G3.
           rewrite H4 in G4. rewrite H5 in G5.
           injection G1 as G1. injection G2 as G2. injection G3 as G3.
           injection G4 as G4. injection G5 as G5.
           destruct data, data'. cbn in *. subst. reflexivity.
      * split; [intros H; discriminate H |].
        intros [error Herr]. rewrite Hnone in Herr. discriminate Herr.
Qed.

(** X23 on a database that cannot be reached: [null] is returned. *)
Lemma fetchRealData_settles_witness :
  snd (Seed.fetchRealData Seed.offline) = Seed.Returned None.
Proof.
  apply (proj2 (proj2 (fetchRealData_settles Seed.offline)
                  (ex_intro _ tt eq_refl))).
  exists "ECONNREFUSED"%string. reflexivity.
Defined.

(** X24. The queries are issued in the order pastPaper, note, forumPost,
    subject, tag, and none is issued after the first rejected one; when
    one of the first four is rejected no sample is printed: the only
    lines are the opening line and one count per fulfilled query. *)
Theorem queries_stop_at_first_rejection (prisma : Seed.Client) :
  Seed.queries (fst (Seed.fetchRealData prisma))
  = firstn (S (Seed.fulfilledFirst (Seed.rejections prisma))) Seed.models /\
  ((Seed.fulfilledFirst (Seed.rejections prisma) < 4)%nat ->
   Seed.logged (fst (Seed.fetchRealData prisma))
   = S (Seed.fulfilledFirst (Seed.rejections prisma))).
Proof.
  destruct (tryBlock_summary prisma) as [_ [_ [Hq [_ Hl]]]].
  unfold Seed.fetchRealData.
  destruct (Seed.tryBlock prisma) as [events outcome]. cbn [fst] in Hq, Hl.
  destruct outcome as [error | data]; destruct (Seed.disconnect prisma);
    cbn [fst snd]; rewrite ?queries_app, ?logged_app, Hq;
    cbn [Seed.queries Seed.logged]; rewrite ?app_nil_r;
    (split; [reflexivity |]);
    intros Hlt; rewrite (Hl Hlt); lia.
Qed.

(** X24 on a database whose subject table is missing: three queries are
    fulfilled, the fourth is rejected, the fifth is never issued, and
    four lines are written. *)
Lemma queries_stop_at_first_rejection_witness :
  Seed.queries (fst (Seed.fetchRealData Seed.seeded))
  = ["pastPaper"; "note"; "forumPost"; "subject"]%string /\
  Seed.logged (fst (Seed.fetchRealData Seed.seeded)) = 4%nat.
Proof.
  split.
  - exact (proj1 (queries_stop_at_first_rejection Seed.seeded)).
  - apply (proj2 (queries_stop_at_first_rejection Seed.seeded)).
    simpl. lia.
Defined.

(** X25. An error is logged exactly when a query is rejected: it is the
    error of the first rejected query, it is logged once, and right
    before the disconnect. *)
Theorem rejection_logged_once (prisma : Seed.Client) :
  Seed.loggedErrors (fst (Seed.fetchRealData prisma))
  = match Seed.firstRejection (Seed.rejections prisma) with
    | Some error => [error]
    | None => []
    end /\
  (forall error,
     Seed.firstRejection (Seed.rejections prisma) = Some error ->
     exists before,
       fst (Seed.fetchRealData prisma)
       = (before ++ [ Seed.LogError "Error fetching data:" error;
                      Seed.Disconnect ])%list).
Proof.
  destruct (tryBlock_summary prisma) as [_ [He [_ [Hout _]]]].
  unfold Seed.fetchRealData.
  destruct (Seed.tryBlock prisma) as [events outcome].
  cbn [fst snd] in He, Hout.
  destruct outcome as [error | data].
  - rewrite Hout.
    destruct (Seed.disconnect prisma); cbn [fst snd];
      rewrite !loggedErrors_app, He; (split; [reflexivity |]);
      intros error' Herr; injection Herr as <-;
      exists events; rewrite <- app_assoc; reflexivity.
  - destruct Hout as [Hnone _]. rewrite Hnone.
    destruct (Seed.disconnect prisma); cbn [fst snd];
      rewrite !loggedErrors_app, He; (split; [reflexivity |]);
      intros error' Herr; discriminate Herr.
Qed.

(** X25 on the database whose subject table is missing. *)
Lemma rejection_logged_once_witness :
  exists before,
    fst (Seed.fetchRealData Seed.seeded)
    = (before ++ [ Seed.LogError "Error fetching data:"
                     "P2021: table Subject does not exist";
                   Seed.Disconnect ])%list.
Proof.
  apply (proj2 (rejection_logged_once Seed.seeded)
           "P2021: table Subject does not exist"%string eq_refl).
Defined.

(** X26. On success [fetchRealData] samples at most three records of
    each kind. Counted in calls to [console.log], and not in lines of
    output (five of the fixed messages begin with a line feed), it makes
    ten fixed calls, five per sampled paper and note, six per sampled
    post, three per sampled subject and one per tag found, hence at most
    67 calls and one per tag. *)
Theorem samples_are_bounded (prisma : Seed.Client) (data : Seed.Data) :
  snd (Seed.fetchRealData prisma) = Seed.Returned (Some data) ->
  Seed.logged (fst (Seed.fetchRealData prisma))
  = (10 + 5 * Nat.min 3 (List.length (Seed.pastPapers data))
     + 5 * Nat.min 3 (List.length (Seed.notes data))
     + 6 * Nat.min 3 (List.length (Seed.forumPosts data))
     + 3 * Nat.min 3 (List.length (Seed.subjects data))
     + List.length (Seed.catTags data))%nat /\
  (Seed.logged (fst (Seed.fetchRealData prisma))
   <= 67 + List.length (Seed.catTags data))%nat.
Proof.
  destruct (tryBlock_summary prisma) as [_ [_ [_ [Hout _]]]].
  unfold Seed.fetchRealData.
  destruct (Seed.tryBlock prisma) as [events outcome]. cbn [fst snd] in Hout.
  destruct outcome as [error | data'];
    destruct (Seed.disconnect prisma); cbn [fst snd];
    intros H; try discriminate H.
  injection H as <-.
  destruct Hout as [_ [_ [_ [_ [_ [_ Hl]]]]]].
  rewrite logged_app, Hl. cbn [Seed.logged]. lia.
Qed.

(** X26 on a database with four papers, one post and one tag. *)
Lemma samples_are_bounded_witness :
  (Seed.logged
     (fst (Seed.fetchRealData
             {| Seed.pastPaper_findMany := Seed.pastPaper_findMany Seed.seeded;
                Seed.note_findMany := inr [];
                Seed.forumPost_findMany := Seed.forumPost_findMany Seed.seeded;
                Seed.subject_findMany := inr [];
                Seed.tag_findMany := Seed.tag_findMany Seed.seeded;
                Seed.disconnect := inr tt |}))
   <= 67 + 1)%nat.
Proof.
  apply (proj2 (@samples_are_bounded
                  {| Seed.pastPaper_findMany :=
                       Seed.pastPaper_findMany Seed.seeded;
                     Seed.note_findMany := inr [];
                     Seed.forumPost_findMany :=
                       Seed.forumPost_findMany Seed.seeded;
                     Seed.subject_findMany := inr [];
                     Seed.tag_findMany := Seed.tag_findMany Seed.seeded;
                     Seed.disconnect := inr tt |}
                  _ eq_refl)).
Defined.

(** The trace of the script on the database whose subject table is
    missing. *)
Example script_on_missing_table :
  Seed.script Seed.seeded
  = [ Seed.Log "Fetching real data from database...";
      Seed.Query "pastPaper";
      Seed.Log "Found 4 past papers";
      Seed.Query "note";
      Seed.Log "Found 0 notes";
      Seed.Query "forumPost";
      Seed.Log "Found 1 forum posts";
      Seed.Query "subject";
      Seed.LogError "Error fetching data:"
        "P2021: table Subject does not exist";
      Seed.Disconnect;
      Seed.Log (Seed.nl ++ "❌ Failed to fetch data") ]%string.
Proof. reflexivity. Qed.
